(** * csi/util.go of longhorn-manager: mount-point lifecycle and volume
      parameter resolution, embedded and checked against its specification.

    The Go functions of [csi/util.go] are translated one by one.  Go values
    are modelled as follows:
    - [string] is a byte string ([string] of Rocq, one [ascii] per byte);
    - [int], [int64] and [uint64] are [Z] with the wrap-around written out;
    - [map[string]string] is [gmap string string]; Go maps are references,
      so the function that mutates two of them runs over a store of maps;
    - [error] is the inductive [error] below, [nil] is [None];
    - calls into the operating system and the mount backend are state
      passing over a world [W], through the interfaces [OS] and [Mounter].
    logrus calls only write log lines and are left out. *)

From Stdlib Require Import ZArith Lia Bool List Ascii String.
From stdpp Require Import base gmap strings.

Local Open Scope string_scope.
Local Open Scope Z_scope.

(* ===================================================================== *)
(** ** Go strings *)
(* ===================================================================== *)

Module GoString.

(** [strings.HasPrefix s p] *)
Fixpoint HasPrefix (s p : string) : bool :=
  match p, s with
  | EmptyString, _ => true
  | String _ _, EmptyString => false
  | String b p', String a s' => if Ascii.eqb a b then HasPrefix s' p' else false
  end.

(** [strings.Contains s substr]: [substr] occurs at some offset of [s]. *)
Fixpoint Contains (s substr : string) : bool :=
  HasPrefix s substr ||
  match s with
  | EmptyString => false
  | String _ s' => Contains s' substr
  end.

(** [strings.Split s sep] for a separator [sep] of one byte: the fields
    between the separators, in order; a string without separator is its
    own single field. *)
Fixpoint Split (s : string) (sep : ascii) : list string :=
  match s with
  | EmptyString => [EmptyString]
  | String c s' =>
      if Ascii.eqb c sep then EmptyString :: Split s' sep
      else match Split s' sep with
           | f :: fs => String c f :: fs
           | [] => [String c EmptyString]
           end
  end.

(** The double quote character, [U+0022]. *)
Definition dquote : string := String (Ascii.ascii_of_nat 34) EmptyString.

End GoString.

(* ===================================================================== *)
(** ** Go paths *)
(* ===================================================================== *)

Module GoPath.

(** The elements of a path written out with slashes between them. *)
Fixpoint joinElements (elems : list string) : string :=
  match elems with
  | [] => ""
  | [e] => e
  | e :: rest => e +:+ "/" +:+ joinElements rest
  end.

(** One element of the path, as [path.Clean] treats it; [kept] holds the
    elements written so far, the last one first.  An empty element (a
    doubled or trailing slash) and [.] are dropped; [..] takes back the
    element before it, is dropped at the root, and is kept where a path
    that is not rooted has nothing to take back. *)
Definition cleanElement (rooted : bool) (kept : list string) (elem : string)
  : list string :=
  if String.eqb elem "" || String.eqb elem "." then kept
  else if String.eqb elem ".." then
    match kept with
    | last :: before => if String.eqb last ".." then elem :: kept else before
    | [] => if rooted then [] else [elem]
    end
  else elem :: kept.

(** [path.Clean]: the shortest path name equivalent to [path] by purely
    lexical processing; the empty result is written [.]. *)
Definition Clean (path : string) : string :=
  let rooted := GoString.HasPrefix path "/" in
  let kept := fold_left (cleanElement rooted) (GoString.Split path "/") [] in
  let out := (if rooted then "/" else "") +:+ joinElements (rev kept) in
  if String.eqb out "" then "." else out.

(** [path.Join] of two elements: empty elements are ignored, the others
    are joined with a slash and the result is cleaned; when both are empty
    the result is the empty string. *)
Definition Join (a b : string) : string :=
  if String.eqb a ""
  then (if String.eqb b "" then "" else Clean b)
  else Clean (a +:+ "/" +:+ b).

End GoPath.

(* ===================================================================== *)
(** ** Go errors *)
(* ===================================================================== *)

(** The [syscall.Errno] values that the functions of this file can meet. *)
Inductive errno : Set :=
| ENOENT | EIO | EACCES | ENOTCONN | ESTALE | EHOSTDOWN
| EBUSY | EROFS | ENOTDIR | EEXIST | EINVAL | ENOSPC.

(** Dynamic types of the error values that flow through the file. *)
Inductive error : Set :=
| io_EOF                                           (* io.EOF *)
| fs_ErrNotExist                                   (* fs.ErrNotExist *)
| Errno (e : errno)                                (* syscall.Errno *)
| PathError (op path : string) (err : error)       (* *fs.PathError *)
| SyscallError (call : string) (err : error)       (* *os.SyscallError *)
| errorString (s : string)                         (* errors.New, fmt.Errorf *)
| NumError (func num : string) (err : error)       (* *strconv.NumError *)
| withMessage (cause : error) (msg : string).      (* pkg/errors Wrap *)

Module GoError.

Definition strerror (e : errno) : string :=
  match e with
  | ENOENT => "no such file or directory"
  | EIO => "input/output error"
  | EACCES => "permission denied"
  | ENOTCONN => "transport endpoint is not connected"
  | ESTALE => "stale NFS file handle"
  | EHOSTDOWN => "host is down"
  | EBUSY => "device or resource busy"
  | EROFS => "read-only file system"
  | ENOTDIR => "not a directory"
  | EEXIST => "file exists"
  | EINVAL => "invalid argument"
  | ENOSPC => "no space left on device"
  end.

(** The method [Error()] of each dynamic type.  [strconv.NumError] quotes
    its input with [strconv.Quote]; the quoting is written for inputs
    without characters to escape. *)
Fixpoint Error (e : error) : string :=
  match e with
  | io_EOF => "EOF"
  | fs_ErrNotExist => "file does not exist"
  | Errno n => strerror n
  | PathError op path err => op +:+ " " +:+ path +:+ ": " +:+ Error err
  | SyscallError call err => call +:+ ": " +:+ Error err
  | errorString s => s
  | NumError func num err =>
      "strconv." +:+ func +:+ ": parsing " +:+ GoString.dquote +:+ num
      +:+ GoString.dquote +:+ ": " +:+ Error err
  | withMessage cause msg => msg +:+ ": " +:+ Error cause
  end.

(** [%v] of an error value in [fmt]: [<nil>] for the nil interface. *)
Definition fmt_v (e : option error) : string :=
  match e with
  | None => "<nil>"
  | Some e => Error e
  end.

(** [errors.Wrap(err, message)] of github.com/pkg/errors: nil stays nil. *)
Definition Wrap (err : option error) (message : string) : option error :=
  match err with
  | None => None
  | Some e => Some (withMessage e message)
  end.

(** [underlyingError] of package os (and the type switch of
    [mount.IsCorruptedMnt]): one layer of path or syscall wrapping. *)
Definition underlyingError (e : error) : error :=
  match e with
  | PathError _ _ err => err
  | SyscallError _ err => err
  | _ => e
  end.

(** [os.IsNotExist(err)] *)
Definition os_IsNotExist (err : option error) : bool :=
  match err with
  | None => false
  | Some e =>
      match underlyingError e with
      | fs_ErrNotExist => true
      | Errno ENOENT => true
      | _ => false
      end
  end.

(** [mount.IsCorruptedMnt(err)] of k8s.io/mount-utils. *)
Definition mount_IsCorruptedMnt (err : option error) : bool :=
  match err with
  | None => false
  | Some e =>
      match underlyingError e with
      | Errno ENOTCONN | Errno ESTALE | Errno EIO
      | Errno EACCES | Errno EHOSTDOWN => true
      | _ => false
      end
  end.

(** [errors.Is(err, io.EOF)]: follows [Unwrap] down the chain. *)
Fixpoint Is_EOF (e : error) : bool :=
  match e with
  | io_EOF => true
  | PathError _ _ err => Is_EOF err
  | SyscallError _ err => Is_EOF err
  | NumError _ _ err => Is_EOF err
  | withMessage cause _ => Is_EOF cause
  | _ => false
  end.

End GoError.

(* ===================================================================== *)
(** ** strconv *)
(* ===================================================================== *)

Module strconv.

Definition ErrSyntax : error := errorString "invalid syntax".
Definition ErrRange : error := errorString "value out of range".

Definition maxUint64 : Z := 2 ^ 64 - 1.
Definition maxInt64 : Z := 2 ^ 63 - 1.
Definition minInt64 : Z := - 2 ^ 63.

Definition digit (c : ascii) : option Z :=
  let n := Z.of_N (Ascii.N_of_ascii c) in
  if (48 <=? n) && (n <=? 57) then Some (n - 48) else None.

(** Outcome of scanning the digits: a value, a syntax error at the first
    byte that is no digit, or a range error as soon as the value leaves
    [uint64]. *)
Inductive scan : Set := Value (n : Z) | Syntax | Range.

Fixpoint parseDigits (s : string) (acc : Z) : scan :=
  match s with
  | EmptyString => Value acc
  | String c s' =>
      match digit c with
      | None => Syntax
      | Some d =>
          let n1 := acc * 10 + d in
          if maxUint64 <? n1 then Range else parseDigits s' n1
      end
  end.

(** [strconv.Atoi(s)] on a 64-bit platform: an optional sign, at least
    one decimal digit, a value within [int]. *)
Definition Atoi (s : string) : Z + error :=
  let syntax := inr (NumError "Atoi" s ErrSyntax) in
  let range := inr (NumError "Atoi" s ErrRange) in
  let '(neg, body) :=
    match s with
    | String "-" s' => (true, s')
    | String "+" s' => (false, s')
    | _ => (false, s)
    end in
  match body with
  | EmptyString => syntax
  | _ =>
      match parseDigits body 0 with
      | Syntax => syntax
      | Range => range
      | Value un =>
          if neg then (if maxInt64 + 1 <? un then range else inl (- un))
          else (if maxInt64 <? un then range else inl un)
      end
  end.

(** [strconv.ParseBool(str)] *)
Definition ParseBool (str : string) : bool + error :=
  if existsb (String.eqb str) ["1"; "t"; "T"; "TRUE"; "true"; "True"] then inl true
  else if existsb (String.eqb str) ["0"; "f"; "F"; "FALSE"; "false"; "False"] then inl false
  else inr (NumError "ParseBool" str ErrSyntax).

(** [strconv.FormatBool(b)] *)
Definition FormatBool (b : bool) : string := if b then "true" else "false".

End strconv.

(* ===================================================================== *)
(** ** Names imported from the rest of the repository *)
(* ===================================================================== *)

(** Constants of package longhorn (k8s/pkg/apis/longhorn/v1beta2). *)
Module longhorn.

(** Modelled from the spec: the two access modes of a volume descriptor,
    [ReadWriteOnce] and [ReadWriteMany]; their declarations are in
    package longhorn, which is not part of this file. *)
Definition AccessModeReadWriteOnce : string := "rwo".
Definition AccessModeReadWriteMany : string := "rwx".

(** Modelled from the spec: the baseline data engine identifier, [v1];
    declared in package longhorn. *)
Definition DataEngineTypeV1 : string := "v1".

End longhorn.

(** [longhornclient.VolumeRecurringJob] *)
Record VolumeRecurringJob : Set := {
  Name : string;
  IsGroup : bool;
}.

(** The fields of [longhornclient.Volume] that [getVolumeOptions] assigns. *)
Record Volume : Set := {
  StaleReplicaTimeout : Z;
  AccessMode : string;
  Migratable : bool;
  Encrypted : bool;
  NumberOfReplicas : Z;
  ReplicaAutoBalance : string;
  DataLocality : string;
  RevisionCounterDisabled : bool;
  UnmapMarkSnapChainRemoved : string;
  ReplicaSoftAntiAffinity : string;
  ReplicaZoneSoftAntiAffinity : string;
  ReplicaDiskSoftAntiAffinity : string;
  FromBackup : string;
  BackupTargetName : string;
  DataSource : string;
  BackingImage : string;
  RecurringJobSelector : list VolumeRecurringJob;
  DiskSelector : list string;
  NodeSelector : list string;
  DataEngine : string;
  Frontend : string;
  FreezeFilesystemForSnapshot : string;
}.

(** What [getVolumeOptions] calls outside this file and outside the Go
    library models above: the validators of package types, the decoder of
    the recurring-job list ([json.Unmarshal] into
    [[]longhornclient.VolumeRecurringJob]) and one key name of package
    longhorn.  A validator returns [None] for Go's nil error. *)
Record Imports : Type := {
  ValidateReplicaAutoBalance : string -> option error;
  ValidateDataLocality : string -> option error;
  ValidateUnmapMarkSnapChainRemoved : string -> string -> option error;
  ValidateReplicaSoftAntiAffinity : string -> option error;
  ValidateReplicaZoneSoftAntiAffinity : string -> option error;
  ValidateReplicaDiskSoftAntiAffinity : string -> option error;
  ValidateFreezeFilesystemForSnapshot : string -> option error;
  json_Unmarshal_RecurringJobs : string -> list VolumeRecurringJob + error;
  BackingImageParameterName : string;
}.

(* ===================================================================== *)
(** ** getVolumeOptions *)
(* ===================================================================== *)

Definition defaultStaleReplicaTimeout : Z := 2880.
Definition defaultStorageClassDisableRevisionCounterParameter : bool := true.

(** What a call of [getVolumeOptions] leaves behind: its two results (the
    volume pointer, [None] for nil, and the error) and the options map,
    which the function may have written to. *)
Definition outcome : Type := option Volume * option error * gmap string string.

(** [let_or_return x := e in k]: the block [e] either yields a value to
    continue with or is a [return] statement of the function. *)
Notation "'let_or_return' x := e 'in' k" :=
  (match e with inl x => k | inr r => r end)
  (at level 10, x pattern, e at level 200, k at level 200, only parsing).

Section Resolver.

Context (I : Imports).

(** [vol] is allocated with zero fields and never escapes before the
    final [return]; each block of the source assigns the fields of its
    own key.  The embedding keeps one local per field, named after it,
    and builds the record at the return.  An [int] is 64 bits wide, so
    the conversions [int64(srt)] and [int64(nor)] change nothing. *)
Definition getVolumeOptions (volumeID : string) (volOptions : gmap string string)
  : outcome :=
  let_or_return srt :=
    match volOptions !! "staleReplicaTimeout" with
    | Some staleReplicaTimeout =>
        match strconv.Atoi staleReplicaTimeout with
        | inr err =>
            inr (None, GoError.Wrap (Some err) "invalid parameter staleReplicaTimeout",
                 volOptions)
        | inl srt => inl srt
        end
    | None => inl 0
    end in
  let vol_StaleReplicaTimeout :=
    if srt <=? 0 then defaultStaleReplicaTimeout else srt in
  let_or_return vol_AccessMode :=
    match volOptions !! "share" with
    | Some share =>
        match strconv.ParseBool share with
        | inr err =>
            inr (None, GoError.Wrap (Some err) "invalid parameter share", volOptions)
        | inl isShared =>
            inl (if isShared then longhorn.AccessModeReadWriteMany
                 else longhorn.AccessModeReadWriteOnce)
        end
    | None => inl ""
    end in
  let_or_return (vol_Migratable, volOptions) :=
    match volOptions !! "migratable" with
    | Some migratable =>
        match strconv.ParseBool migratable with
        | inr err =>
            inr (None, GoError.Wrap (Some err) "invalid parameter migratable", volOptions)
        | inl isMigratable =>
            if isMigratable
               && negb (String.eqb vol_AccessMode longhorn.AccessModeReadWriteMany)
            then inl (false, <["migratable" := strconv.FormatBool false]> volOptions)
            else inl (isMigratable, volOptions)
        end
    | None => inl (false, volOptions)
    end in
  let_or_return vol_Encrypted :=
    match volOptions !! "encrypted" with
    | Some encrypted =>
        match strconv.ParseBool encrypted with
        | inr err =>
            inr (None, GoError.Wrap (Some err) "invalid parameter encrypted", volOptions)
        | inl isEncrypted => inl isEncrypted
        end
    | None => inl false
    end in
  let_or_return vol_NumberOfReplicas :=
    match volOptions !! "numberOfReplicas" with
    | Some numberOfReplicas =>
        match strconv.Atoi numberOfReplicas with
        | inr err =>
            inr (None, GoError.Wrap (Some err) "invalid parameter numberOfReplicas",
                 volOptions)
        | inl nor =>
            if nor <? 0
            then inr (None, GoError.Wrap None "invalid parameter numberOfReplicas",
                      volOptions)
            else inl nor
        end
    | None => inl 0
    end in
  let_or_return vol_ReplicaAutoBalance :=
    match volOptions !! "replicaAutoBalance" with
    | Some replicaAutoBalance =>
        match ValidateReplicaAutoBalance I replicaAutoBalance with
        | Some err =>
            inr (None, GoError.Wrap (Some err) "invalid parameter replicaAutoBalance",
                 volOptions)
        | None => inl replicaAutoBalance
        end
    | None => inl ""
    end in
  let_or_return vol_DataLocality :=
    match volOptions !! "dataLocality" with
    | Some locality =>
        match ValidateDataLocality I locality with
        | Some err =>
            inr (None, GoError.Wrap (Some err) "invalid parameter dataLocality", volOptions)
        | None => inl locality
        end
    | None => inl ""
    end in
  let_or_return vol_RevisionCounterDisabled :=
    match volOptions !! "disableRevisionCounter" with
    | Some revisionCounterDisabled =>
        match strconv.ParseBool revisionCounterDisabled with
        | inr err =>
            inr (None, GoError.Wrap (Some err) "invalid parameter disableRevisionCounter",
                 volOptions)
        | inl revCounterDisabled => inl revCounterDisabled
        end
    | None => inl defaultStorageClassDisableRevisionCounterParameter
    end in
  (* vol.DataEngine still has its zero value here: it is assigned below *)
  let_or_return vol_UnmapMarkSnapChainRemoved :=
    match volOptions !! "unmapMarkSnapChainRemoved" with
    | Some unmapMarkSnapChainRemoved =>
        match ValidateUnmapMarkSnapChainRemoved I "" unmapMarkSnapChainRemoved with
        | Some err =>
            inr (None,
                 GoError.Wrap (Some err) "invalid parameter unmapMarkSnapChainRemoved",
                 volOptions)
        | None => inl unmapMarkSnapChainRemoved
        end
    | None => inl ""
    end in
  let_or_return vol_ReplicaSoftAntiAffinity :=
    match volOptions !! "replicaSoftAntiAffinity" with
    | Some replicaSoftAntiAffinity =>
        match ValidateReplicaSoftAntiAffinity I replicaSoftAntiAffinity with
        | Some err =>
            inr (None, GoError.Wrap (Some err) "invalid parameter replicaSoftAntiAffinity",
                 volOptions)
        | None => inl replicaSoftAntiAffinity
        end
    | None => inl ""
    end in
  let_or_return vol_ReplicaZoneSoftAntiAffinity :=
    match volOptions !! "replicaZoneSoftAntiAffinity" with
    | Some replicaZoneSoftAntiAffinity =>
        match ValidateReplicaZoneSoftAntiAffinity I replicaZoneSoftAntiAffinity with
        | Some err =>
            inr (None,
                 GoError.Wrap (Some err) "invalid parameter replicaZoneSoftAntiAffinity",
                 volOptions)
        | None => inl replicaZoneSoftAntiAffinity
        end
    | None => inl ""
    end in
  let_or_return vol_ReplicaDiskSoftAntiAffinity :=
    match volOptions !! "replicaDiskSoftAntiAffinity" with
    | Some replicaDiskSoftAntiAffinity =>
        match ValidateReplicaDiskSoftAntiAffinity I replicaDiskSoftAntiAffinity with
        | Some err =>
            inr (None,
                 GoError.Wrap (Some err) "invalid parameter replicaDiskSoftAntiAffinity",
                 volOptions)
        | None => inl replicaDiskSoftAntiAffinity
        end
    | None => inl ""
    end in
  let vol_FromBackup := default "" (volOptions !! "fromBackup") in
  let vol_BackupTargetName := default "" (volOptions !! "backupTargetName") in
  let vol_DataSource := default "" (volOptions !! "dataSource") in
  let vol_BackingImage := default "" (volOptions !! BackingImageParameterName I) in
  let_or_return vol_RecurringJobSelector :=
    match volOptions !! "recurringJobSelector" with
    | Some jsonRecurringJobSelector =>
        match json_Unmarshal_RecurringJobs I jsonRecurringJobSelector with
        | inr err =>
            inr (None,
                 GoError.Wrap (Some err) "invalid json format of recurringJobSelector",
                 volOptions)
        | inl recurringJobSelector => inl recurringJobSelector
        end
    | None => inl []
    end in
  let vol_DiskSelector :=
    match volOptions !! "diskSelector" with
    | Some diskSelector => GoString.Split diskSelector ","
    | None => []
    end in
  let vol_NodeSelector :=
    match volOptions !! "nodeSelector" with
    | Some nodeSelector => GoString.Split nodeSelector ","
    | None => []
    end in
  let vol_DataEngine :=
    match volOptions !! "dataEngine" with
    | Some driver => driver
    | None => longhorn.DataEngineTypeV1
    end in
  let vol_Frontend := default "" (volOptions !! "frontend") in
  let_or_return vol_FreezeFilesystemForSnapshot :=
    match volOptions !! "freezeFilesystemForSnapshot" with
    | Some freezeFilesystemForSnapshot =>
        match ValidateFreezeFilesystemForSnapshot I freezeFilesystemForSnapshot with
        | Some err =>
            inr (None,
                 GoError.Wrap (Some err) "invalid parameter freezeFilesystemForSnapshot",
                 volOptions)
        | None => inl freezeFilesystemForSnapshot
        end
    | None => inl ""
    end in
  (Some {| StaleReplicaTimeout := vol_StaleReplicaTimeout;
           AccessMode := vol_AccessMode;
           Migratable := vol_Migratable;
           Encrypted := vol_Encrypted;
           NumberOfReplicas := vol_NumberOfReplicas;
           ReplicaAutoBalance := vol_ReplicaAutoBalance;
           DataLocality := vol_DataLocality;
           RevisionCounterDisabled := vol_RevisionCounterDisabled;
           UnmapMarkSnapChainRemoved := vol_UnmapMarkSnapChainRemoved;
           ReplicaSoftAntiAffinity := vol_ReplicaSoftAntiAffinity;
           ReplicaZoneSoftAntiAffinity := vol_ReplicaZoneSoftAntiAffinity;
           ReplicaDiskSoftAntiAffinity := vol_ReplicaDiskSoftAntiAffinity;
           FromBackup := vol_FromBackup;
           BackupTargetName := vol_BackupTargetName;
           DataSource := vol_DataSource;
           BackingImage := vol_BackingImage;
           RecurringJobSelector := vol_RecurringJobSelector;
           DiskSelector := vol_DiskSelector;
           NodeSelector := vol_NodeSelector;
           DataEngine := vol_DataEngine;
           Frontend := vol_Frontend;
           FreezeFilesystemForSnapshot := vol_FreezeFilesystemForSnapshot |},
   None, volOptions).

End Resolver.


(** An instance of [Imports] to run the resolver on concrete maps. *)
Module Fixture.

Definition oneOf (what : string) (allowed : list string) (v : string) : option error :=
  if existsb (String.eqb v) allowed then None
  else Some (errorString ("invalid " +:+ what +:+ ": " +:+ v)).

(** A decoder that knows the empty JSON list only. *)
Definition unmarshalJobs (s : string) : list VolumeRecurringJob + error :=
  if String.eqb s "[]" then inl []
  else inr (errorString "invalid character looking for beginning of value").

(** Modelled from the spec: the validators of package types, which is not
    part of this file; each accepts the values of a fixed enumerated
    set. *)
Definition imports : Imports := {|
  ValidateReplicaAutoBalance :=
    oneOf "replica auto-balance option" ["ignored"; "disabled"; "least-effort"; "best-effort"];
  ValidateDataLocality :=
    oneOf "data locality" ["disabled"; "best-effort"; "strict-local"];
  ValidateUnmapMarkSnapChainRemoved := fun _ =>
    oneOf "UnmapMarkSnapChainRemoved setting" ["ignored"; "disabled"; "enabled"];
  ValidateReplicaSoftAntiAffinity :=
    oneOf "ReplicaSoftAntiAffinity setting" ["ignored"; "disabled"; "enabled"];
  ValidateReplicaZoneSoftAntiAffinity :=
    oneOf "ReplicaZoneSoftAntiAffinity setting" ["ignored"; "disabled"; "enabled"];
  ValidateReplicaDiskSoftAntiAffinity :=
    oneOf "ReplicaDiskSoftAntiAffinity setting" ["ignored"; "disabled"; "enabled"];
  ValidateFreezeFilesystemForSnapshot :=
    oneOf "FreezeFilesystemForSnapshot setting" ["ignored"; "disabled"; "enabled"];
  json_Unmarshal_RecurringJobs := unmarshalJobs;
  BackingImageParameterName := "backingImage";
|}.

(** [json.Marshal] of a map whose keys and values have no character to
    escape: the entries in the order of their keys; [null] for the nil
    map. *)
Fixpoint insertByKey (kv : string * string) (l : list (string * string))
  : list (string * string) :=
  match l with
  | [] => [kv]
  | x :: l' => if String.leb kv.1 x.1 then kv :: l else x :: insertByKey kv l'
  end.

Definition quoted (s : string) : string := GoString.dquote +:+ s +:+ GoString.dquote.

Fixpoint members (l : list (string * string)) : string :=
  match l with
  | [] => ""
  | [kv] => quoted kv.1 +:+ ":" +:+ quoted kv.2
  | kv :: l' => quoted kv.1 +:+ ":" +:+ quoted kv.2 +:+ "," +:+ members l'
  end.

Definition marshal (m : option (gmap string string)) : string :=
  match m with
  | None => "null"
  | Some m => "{" +:+ members (foldr insertByKey [] (map_to_list m)) +:+ "}"
  end.

End Fixture.

(* ===================================================================== *)
(** ** updateVolumeParamsForBackingImage *)
(* ===================================================================== *)

(** A Go map is a reference.  The store binds the reference of every
    allocated map to its contents; a reference that the store does not bind
    is a nil map: reading it yields the zero value, deleting from it does
    nothing and assigning to it panics. *)
Module MapStore.

Definition mapIndex (h : gmap nat (gmap string string)) (r : nat) (k : string) : string :=
  default "" (h !! r ≫= (.!! k)).

(** [None] is the panic of an assignment to an entry of a nil map. *)
Definition mapAssign (h : gmap nat (gmap string string)) (r : nat) (k v : string)
  : option (gmap nat (gmap string string)) :=
  match h !! r with
  | Some m => Some (<[r := <[k := v]> m]> h)
  | None => None
  end.

Definition mapDelete (h : gmap nat (gmap string string)) (r : nat) (k : string)
  : gmap nat (gmap string string) :=
  match h !! r with
  | Some m => <[r := delete k m]> h
  | None => h
  end.

End MapStore.

Section BackingImage.

(** The four key names of package longhorn that the function uses, and
    [json.Marshal] on a [map[string]string] ([None] is the nil map); the
    error of [json.Marshal] is dropped by the source. *)
Context (BackingImageParameterName : string)
        (BackingImageParameterDataSourceType : string)
        (BackingImageParameterChecksum : string)
        (BackingImageParameterDataSourceParameters : string)
        (json_Marshal : option (gmap string string) -> string).

Definition BackingImageInfoFields : list string :=
  [ BackingImageParameterName;
    BackingImageParameterDataSourceType;
    BackingImageParameterChecksum ].

(** The body of the [for] loop, for the field [v]. *)
Definition liftField (volumeParameters backingImageParameters : nat) (v : string)
           (h : gmap nat (gmap string string)) : option (gmap nat (gmap string string)) :=
  h1 ← MapStore.mapAssign h volumeParameters v
         (MapStore.mapIndex h backingImageParameters v);
  Some (MapStore.mapDelete h1 backingImageParameters v).

Definition updateVolumeParamsForBackingImage
           (volumeParameters backingImageParameters : nat)
           (h : gmap nat (gmap string string)) : option (gmap nat (gmap string string)) :=
  h ← foldl (fun acc v => acc ≫= liftField volumeParameters backingImageParameters v)
            (Some h) BackingImageInfoFields;
  let backingImageParametersStr := json_Marshal (h !! backingImageParameters) in
  MapStore.mapAssign h volumeParameters BackingImageParameterDataSourceParameters
    backingImageParametersStr.

End BackingImage.

(* ===================================================================== *)
(** ** requiresSharedAccess *)
(* ===================================================================== *)

(** The types of the CSI library that [requiresSharedAccess] reads. *)
Module csi.

Inductive VolumeCapability_AccessMode_Mode : Set :=
| UNKNOWN
| SINGLE_NODE_WRITER
| SINGLE_NODE_READER_ONLY
| MULTI_NODE_READER_ONLY
| MULTI_NODE_SINGLE_WRITER
| MULTI_NODE_MULTI_WRITER
| SINGLE_NODE_SINGLE_WRITER
| SINGLE_NODE_MULTI_WRITER.

Definition Mode_eqb (a b : VolumeCapability_AccessMode_Mode) : bool :=
  match a, b with
  | UNKNOWN, UNKNOWN
  | SINGLE_NODE_WRITER, SINGLE_NODE_WRITER
  | SINGLE_NODE_READER_ONLY, SINGLE_NODE_READER_ONLY
  | MULTI_NODE_READER_ONLY, MULTI_NODE_READER_ONLY
  | MULTI_NODE_SINGLE_WRITER, MULTI_NODE_SINGLE_WRITER
  | MULTI_NODE_MULTI_WRITER, MULTI_NODE_MULTI_WRITER
  | SINGLE_NODE_SINGLE_WRITER, SINGLE_NODE_SINGLE_WRITER
  | SINGLE_NODE_MULTI_WRITER, SINGLE_NODE_MULTI_WRITER => true
  | _, _ => false
  end.

Record VolumeCapability_AccessMode : Set := {
  Mode : VolumeCapability_AccessMode_Mode;
}.

(** The field [AccessMode] is a pointer: [None] is nil. *)
Record VolumeCapability : Set := {
  AccessMode : option VolumeCapability_AccessMode;
}.

End csi.

(** [vol] and [cap] are pointers, [None] is nil.  The result [None] is the
    run-time panic of [cap.AccessMode.Mode] on a capability whose
    [AccessMode] is nil. *)
Definition requiresSharedAccess (vol : option Volume) (cap : option csi.VolumeCapability)
  : option bool :=
  let isSharedVolume :=
    match vol with
    | Some vol =>
        String.eqb (AccessMode vol) longhorn.AccessModeReadWriteMany || Migratable vol
    | None => false
    end in
  mode ← match cap with
         | Some cap => csi.Mode <$> csi.AccessMode cap
         | None => Some csi.UNKNOWN
         end;
  Some (isSharedVolume
        || csi.Mode_eqb mode csi.MULTI_NODE_READER_ONLY
        || csi.Mode_eqb mode csi.MULTI_NODE_SINGLE_WRITER
        || csi.Mode_eqb mode csi.MULTI_NODE_MULTI_WRITER).

(* ===================================================================== *)
(** ** The operating system and the mount backend *)
(* ===================================================================== *)

(** A computation over the world [W]: the file system, the mount table and
    whatever else a system call can observe or change. *)
Definition IO (W A : Type) : Type := W -> A * W.

Definition io_ret {W A} (a : A) : IO W A := fun w => (a, w).

Definition io_bind {W A B} (c : IO W A) (k : A -> IO W B) : IO W B :=
  fun w => let '(a, w') := c w in k a w'.

Declare Scope io_scope.
Delimit Scope io_scope with io.
Notation "'call' x := c 'in' k" :=
  (io_bind c (fun x => k))
  (at level 10, x pattern, c at level 200, k at level 200, only parsing) : io_scope.

(** [os.FileInfo], as far as the file reads it. *)
Record FileInfo : Set := {
  IsDir : bool;
}.

(** [unix.Statfs_t]: [Bsize] is an [int64], the counters are [uint64]. *)
Record Statfs_t : Set := {
  Bsize : Z;
  Blocks : Z;
  Bfree : Z;
  Bavail : Z;
  Files : Z;
  Ffree : Z;
}.

(** The calls of packages os, path and unix that the file makes.  An open
    file is its descriptor. *)
Record OS (W : Type) : Type := {
  os_OpenFile : string -> Z -> Z -> IO W (Z + error);
  File_Readdirnames : Z -> Z -> IO W (list string * option error);
  File_WriteString : Z -> string -> IO W (Z * option error);
  File_Close : Z -> IO W (option error);
  os_Remove : string -> IO W (option error);
  os_MkdirAll : string -> Z -> IO W (option error);
  os_Stat : string -> IO W (FileInfo + error);
  unix_Statfs : string -> IO W (Statfs_t + error);
  path_Join : string -> string -> string;
}.

Arguments os_OpenFile {W}.
Arguments File_Readdirnames {W}.
Arguments File_WriteString {W}.
Arguments File_Close {W}.
Arguments os_Remove {W}.
Arguments os_MkdirAll {W}.
Arguments os_Stat {W}.
Arguments unix_Statfs {W}.
Arguments path_Join {W}.

(** [mount.Interface] of k8s.io/mount-utils, as far as the file calls it.
    [UnmountWithForce] is present exactly when the mounter also implements
    [mount.MounterForceUnmounter]; its second argument is the timeout, a
    [time.Duration] in nanoseconds. *)
Record Mounter (W : Type) : Type := {
  IsMountPoint : string -> IO W (bool * option error);
  Unmount : string -> IO W (option error);
  UnmountWithForce : option (string -> Z -> IO W (option error));
}.

Arguments IsMountPoint {W}.
Arguments Unmount {W}.
Arguments UnmountWithForce {W}.

(** Flags and permission bits of package os on Linux. *)
Module os.
Definition O_RDWR : Z := 0x2.
Definition O_CREATE : Z := 0x40.
Definition O_TRUNC : Z := 0x200.
Definition O_SYNC : Z := 0x101000.
Definition ModePerm : Z := 511.                 (* 0777 *)
End os.

(** The permission literals [0750] and [0666] of the source, in decimal. *)
Definition perm_0750 : Z := 488.
Definition perm_0666 : Z := 438.

Module time.
Definition Second : Z := 1000000000.
End time.

Definition defaultForceUmountTimeout : Z := 30 * time.Second.

Definition tempTestMountPointValidStatusFile : string :=
  ".longhorn-volume-mount-point-test.tmp".

(** [int64(x)]: the value of [x] in two's complement on 64 bits. *)
Definition int64 (x : Z) : Z := (x + 2 ^ 63) mod 2 ^ 64 - 2 ^ 63.

Record volumeFilesystemStatistics : Set := {
  availableBytes : Z;
  totalBytes : Z;
  usedBytes : Z;
  availableInodes : Z;
  totalInodes : Z;
  usedInodes : Z;
}.

Section MountLifecycle.

Context {W : Type} (sys : OS W).

Local Open Scope io_scope.

(** The deferred calls run when the function returns, the last deferred
    first: closing and removing the sentinel file, then closing the
    directory.  Their errors are only logged. *)
Definition syncMountPointDirectory (targetPath : string) : IO W (option error) :=
  call d := os_OpenFile sys targetPath os.O_SYNC perm_0750 in
  match d with
  | inr err => io_ret (Some err)
  | inl d =>
      call result :=
        (call names := File_Readdirnames sys d 1 in
         match names.2 with
         | Some err =>
             if negb (GoError.Is_EOF err) then io_ret (Some err)
             else io_ret None
         | None => io_ret None
         end) in
      call result :=
        match result with
        | Some err => io_ret (Some err)
        | None =>
            let tempFile := path_Join sys targetPath tempTestMountPointValidStatusFile in
            call f := os_OpenFile sys tempFile
                        (Z.lor (Z.lor (Z.lor os.O_CREATE os.O_RDWR) os.O_SYNC) os.O_TRUNC)
                        perm_0666 in
            match f with
            | inr err => io_ret (Some err)
            | inl f =>
                call written := File_WriteString sys f tempFile in
                call _ := File_Close sys f in
                call _ := os_Remove sys tempFile in
                io_ret written.2
            end
        end in
      call _ := File_Close sys d in
      io_ret result
  end.

Definition unmount (path : string) (mounter : Mounter W) : IO W (option error) :=
  call err :=
    match UnmountWithForce mounter with
    | Some forceUnmounter => forceUnmounter path defaultForceUmountTimeout
    | None => Unmount mounter path
    end in
  match err with
  | None => io_ret None
  | Some e =>
      if GoString.Contains (GoError.Error e) "not mounted"
         || GoString.Contains (GoError.Error e) "no mount point specified"
      then io_ret None
      else io_ret (Some e)
  end.

(** The [err] of the last [return] and of the message is the one of
    [IsMountPoint]: the [err] of the probe is local to its [if]. *)
Definition ensureMountPoint (path : string) (mounter : Mounter W)
  : IO W (bool * option error) :=
  call r := IsMountPoint mounter path in
  let isMnt := r.1 in
  let err := r.2 in
  if GoError.os_IsNotExist err then
    call mkdirErr := os_MkdirAll sys path perm_0750 in
    io_ret (false, mkdirErr)
  else
    let IsCorruptedMnt := GoError.mount_IsCorruptedMnt err in
    call IsCorruptedMnt :=
      (if negb IsCorruptedMnt then
         call probeErr := syncMountPointDirectory path in
         match probeErr with
         | Some _ => io_ret true
         | None => io_ret IsCorruptedMnt
         end
       else io_ret IsCorruptedMnt) in
    if IsCorruptedMnt then
      call unmountErr := unmount path mounter in
      match unmountErr with
      | Some unmountErr =>
          io_ret (false,
                  Some (errorString
                          ("failed to unmount corrupt mount point " +:+ path
                           +:+ " umount error: " +:+ GoError.Error unmountErr
                           +:+ " eval error: " +:+ GoError.fmt_v err)))
      | None => io_ret (false, None)
      end
    else io_ret (isMnt, err).

Definition ensureDirectory (path : string) : IO W (bool * option error) :=
  call r := os_Stat sys path in
  match r with
  | inr err =>
      if GoError.os_IsNotExist (Some err) then
        call err := os_MkdirAll sys path os.ModePerm in
        match err with
        | Some err => io_ret (false, Some err)
        | None => io_ret (true, None)
        end
      else io_ret (false, Some err)
  | inl fileInfo =>
      if IsDir fileInfo then io_ret (true, None)
      else io_ret (false,
                   Some (errorString ("path " +:+ path
                                      +:+ " exists but is not a folder")))
  end.

Definition getFilesystemStatistics (volumePath : string)
  : IO W (option volumeFilesystemStatistics * option error) :=
  call r := unix_Statfs sys volumePath in
  match r with
  | inr err => io_ret (None, Some err)
  | inl statfs =>
      io_ret
        (Some {| availableBytes := int64 (int64 (Bavail statfs) * int64 (Bsize statfs));
                 totalBytes := int64 (int64 (Blocks statfs) * int64 (Bsize statfs));
                 usedBytes :=
                   int64 (int64 (int64 (Blocks statfs) - int64 (Bfree statfs))
                          * int64 (Bsize statfs));
                 availableInodes := int64 (Ffree statfs);
                 totalInodes := int64 (Files statfs);
                 usedInodes := int64 (int64 (Files statfs) - int64 (Ffree statfs)) |},
         None)
  end.

End MountLifecycle.

(* ===================================================================== *)
(** ** Test doubles for the operating system and the mount backend *)
(* ===================================================================== *)

(** A scripted system: every call is recorded in the world, which is the
    list of the calls made so far, and is answered as the script says. *)
Module Fake.

Inductive syscall : Set :=
| IsMountPoint_ (path : string)
| Unmount_ (path : string)
| UnmountWithForce_ (path : string) (timeout : Z)
| OpenFile_ (name : string) (flag perm : Z)
| Readdirnames_ (fd n : Z)
| WriteString_ (fd : Z) (s : string)
| Close_ (fd : Z)
| Remove_ (name : string)
| MkdirAll_ (path : string) (perm : Z)
| Stat_ (name : string)
| Statfs_ (path : string).

Record script : Set := {
  on_IsMountPoint : bool * option error;
  on_Unmount : option error;
  forceful : bool;
  on_OpenFile : string -> Z + error;
  on_Readdirnames : list string * option error;
  on_WriteString : option error;
  on_MkdirAll : option error;
  on_Stat : FileInfo + error;
  on_Statfs : Statfs_t + error;
}.

Definition answer {A : Type} (c : syscall) (a : A) : IO (list syscall) A :=
  fun w => (a, (w ++ [c])%list).

Definition sys (s : script) : OS (list syscall) := {|
  os_OpenFile name flag perm := answer (OpenFile_ name flag perm) (on_OpenFile s name);
  File_Readdirnames fd n := answer (Readdirnames_ fd n) (on_Readdirnames s);
  File_WriteString fd str :=
    answer (WriteString_ fd str)
           (match on_WriteString s with
            | None => (Z.of_nat (String.length str), None)
            | Some e => (0, Some e)
            end);
  File_Close fd := answer (Close_ fd) None;
  os_Remove name := answer (Remove_ name) None;
  os_MkdirAll path perm := answer (MkdirAll_ path perm) (on_MkdirAll s);
  os_Stat name := answer (Stat_ name) (on_Stat s);
  unix_Statfs path := answer (Statfs_ path) (on_Statfs s);
  path_Join a b := GoPath.Join a b;
|}.

Definition mounter (s : script) : Mounter (list syscall) := {|
  IsMountPoint path := answer (IsMountPoint_ path) (on_IsMountPoint s);
  Unmount path := answer (Unmount_ path) (on_Unmount s);
  UnmountWithForce :=
    if forceful s
    then Some (fun path timeout => answer (UnmountWithForce_ path timeout) (on_Unmount s))
    else None;
|}.

(** A healthy directory mounted at [/mnt/vol], on a backend with forced
    unmount. *)
Definition healthy : script := {|
  on_IsMountPoint := (true, None);
  on_Unmount := None;
  forceful := true;
  on_OpenFile := fun name => if String.eqb name "/mnt/vol" then inl 3 else inl 4;
  on_Readdirnames := (["lost+found"], None);
  on_WriteString := None;
  on_MkdirAll := None;
  on_Stat := inl {| IsDir := true |};
  on_Statfs := inl {| Bsize := 4096; Blocks := 1000; Bfree := 400;
                      Bavail := 350; Files := 640; Ffree := 600 |};
|}.

(** A mount table: the world is the list of the mounted paths; unmounting
    a path that is not mounted fails the way [umount] does. *)
Definition tableMounter : Mounter (list string) := {|
  IsMountPoint path := fun w => ((bool_decide (path ∈ w), None), w);
  Unmount path := fun w =>
    if bool_decide (path ∈ w)
    then (None, filter (fun p => p <> path) w)
    else (Some (errorString ("umount: " +:+ path +:+ ": not mounted.")), w);
  UnmountWithForce := None;
|}.

End Fake.

(** Scripts for the runs below. *)

(** The path is absent and can be created. *)
Definition absentPath : Fake.script := {|
  Fake.on_IsMountPoint := (false, Some (PathError "stat" "/mnt/vol" (Errno ENOENT)));
  Fake.on_Unmount := None;
  Fake.forceful := true;
  Fake.on_OpenFile := fun name => inr (PathError "open" name (Errno ENOENT));
  Fake.on_Readdirnames := ([], None);
  Fake.on_WriteString := None;
  Fake.on_MkdirAll := None;
  Fake.on_Stat := inr (PathError "stat" "/mnt/vol" (Errno ENOENT));
  Fake.on_Statfs := inr (Errno ENOENT);
|}.

(** The path is absent and lies on a read-only file system. *)
Definition absentPathReadOnly : Fake.script := {|
  Fake.on_IsMountPoint := (false, Some (PathError "stat" "/mnt/vol" (Errno ENOENT)));
  Fake.on_Unmount := None;
  Fake.forceful := true;
  Fake.on_OpenFile := fun name => inr (PathError "open" name (Errno ENOENT));
  Fake.on_Readdirnames := ([], None);
  Fake.on_WriteString := None;
  Fake.on_MkdirAll := Some (PathError "mkdir" "/mnt/vol" (Errno EROFS));
  Fake.on_Stat := inr (PathError "stat" "/mnt/vol" (Errno ENOENT));
  Fake.on_Statfs := inr (Errno ENOENT);
|}.

(** The mount table lists the path as mounted, the directory cannot be
    opened, and the unmount fails. *)
Definition staleAndBusy : Fake.script := {|
  Fake.on_IsMountPoint := (true, None);
  Fake.on_Unmount := Some (errorString "umount: /mnt/vol: target is busy.");
  Fake.forceful := true;
  Fake.on_OpenFile := fun name => inr (PathError "open" name (Errno EIO));
  Fake.on_Readdirnames := ([], None);
  Fake.on_WriteString := None;
  Fake.on_MkdirAll := None;
  Fake.on_Stat := inl {| IsDir := true |};
  Fake.on_Statfs := inr (Errno EIO);
|}.

(** A file system of [2^51] blocks of 4096 bytes, all of them in use:
    its size is [2^63] bytes. *)
Definition fullExbibytes : Fake.script := {|
  Fake.on_IsMountPoint := (true, None);
  Fake.on_Unmount := None;
  Fake.forceful := true;
  Fake.on_OpenFile := fun name => if String.eqb name "/mnt/vol" then inl 3 else inl 4;
  Fake.on_Readdirnames := (["lost+found"], None);
  Fake.on_WriteString := None;
  Fake.on_MkdirAll := None;
  Fake.on_Stat := inl {| IsDir := true |};
  Fake.on_Statfs := inl {| Bsize := 4096; Blocks := 2 ^ 51; Bfree := 0;
                           Bavail := 0; Files := 640; Ffree := 600 |};
|}.

(** A ReadWriteMany descriptor. *)
Definition sharedDescriptor : Volume :=
  {| StaleReplicaTimeout := 2880; AccessMode := "rwx"; Migratable := false;
     Encrypted := false; NumberOfReplicas := 3; ReplicaAutoBalance := "";
     DataLocality := ""; RevisionCounterDisabled := true;
     UnmapMarkSnapChainRemoved := ""; ReplicaSoftAntiAffinity := "";
     ReplicaZoneSoftAntiAffinity := ""; ReplicaDiskSoftAntiAffinity := "";
     FromBackup := ""; BackupTargetName := ""; DataSource := "";
     BackingImage := ""; RecurringJobSelector := []; DiskSelector := [];
     NodeSelector := []; DataEngine := "v1"; Frontend := "";
     FreezeFilesystemForSnapshot := "" |}.

(* ===================================================================== *)
(** ** Vocabulary of the specification *)
(* ===================================================================== *)

(** The access mode that the [share] block resolves to is not
    ReadWriteMany: the key is absent, or its value parses to false. *)
Definition accessModeNotRWX (m : gmap string string) : Prop :=
  m !! "share" = None \/
  exists share, m !! "share" = Some share /\ strconv.ParseBool share = inl false.

(** The descriptor that an options map without recognised keys, or with
    only a downgraded [migratable], resolves to. *)
Definition defaultVolume (I : Imports) : Volume :=
  {| StaleReplicaTimeout := 2880; AccessMode := ""; Migratable := false;
     Encrypted := false; NumberOfReplicas := 0; ReplicaAutoBalance := "";
     DataLocality := ""; RevisionCounterDisabled := true;
     UnmapMarkSnapChainRemoved := ""; ReplicaSoftAntiAffinity := "";
     ReplicaZoneSoftAntiAffinity := ""; ReplicaDiskSoftAntiAffinity := "";
     FromBackup := ""; BackupTargetName := ""; DataSource := "";
     BackingImage :=
       default "" (({[ "migratable" := "false" ]} : gmap string string)
                     !! BackingImageParameterName I);
     RecurringJobSelector := []; DiskSelector := []; NodeSelector := [];
     DataEngine := "v1"; Frontend := ""; FreezeFilesystemForSnapshot := "" |}.

(** The access mode that a capability asks for: [UNKNOWN] for a nil
    capability, nothing for a capability whose [AccessMode] is nil. *)
Definition requestedMode (cap : option csi.VolumeCapability)
  : option csi.VolumeCapability_AccessMode_Mode :=
  match cap with
  | Some cap => csi.Mode <$> csi.AccessMode cap
  | None => Some csi.UNKNOWN
  end.

(** The descriptor is marked shared: its access mode is ReadWriteMany or
    it is migratable. *)
Definition sharedVolume (vol : option Volume) : Prop :=
  exists v, vol = Some v /\
            (AccessMode v = longhorn.AccessModeReadWriteMany \/ Migratable v = true).

Definition multiNode (mode : csi.VolumeCapability_AccessMode_Mode) : Prop :=
  mode = csi.MULTI_NODE_READER_ONLY \/
  mode = csi.MULTI_NODE_SINGLE_WRITER \/
  mode = csi.MULTI_NODE_MULTI_WRITER.

(** [x] is a value of type [int64]. *)
Definition fitsInt64 (x : Z) : Prop := - 2 ^ 63 <= x < 2 ^ 63.

(** The text of the error says that nothing is mounted. *)
Definition notMountedError (e : error) : bool :=
  GoString.Contains (GoError.Error e) "not mounted"
  || GoString.Contains (GoError.Error e) "no mount point specified".

(** The call into the mount backend: a forced unmount bounded by 30
    seconds when the backend has one, a plain unmount otherwise. *)
Definition backendUnmount {W : Type} (path : string) (mounter : Mounter W)
  : IO W (option error) :=
  match UnmountWithForce mounter with
  | Some force => force path 30000000000
  | None => Unmount mounter path
  end.

(** The backend has nothing to unmount at [path]: it answers with nil or
    with an error of the not-mounted class. *)
Definition alreadyUnmounted {W : Type} (path : string) (mounter : Mounter W) (w : W)
  : Prop :=
  match (backendUnmount path mounter w).1 with
  | None => True
  | Some e => notMountedError e = true
  end.

(** The path exists and is found corrupt, by the mount table (then the
    probe does not run) or by the probe, which runs from [w1] to [w2]. *)
Definition foundCorrupt {W : Type} (sys : OS W) (path : string) (err : option error)
           (w1 w2 : W) : Prop :=
  (GoError.mount_IsCorruptedMnt err = true /\ w2 = w1) \/
  (GoError.mount_IsCorruptedMnt err = false /\
   exists probeErr, syncMountPointDirectory sys path w1 = (Some probeErr, w2)).

(* ===================================================================== *)
(** ** The rest of csi/util.go *)
(* ===================================================================== *)

(** [utilexec.Interface] of k8s.io/utils/exec.  [Command] and
    [CommandContext] only build the command value; [LookPath] searches the
    file system. *)
Record ExecInterface (W Cmd Ctx : Type) : Type := {
  exec_Command : string -> list string -> Cmd;
  exec_CommandContext : Ctx -> string -> list string -> Cmd;
  exec_LookPath : string -> IO W (string * option error);
}.

Arguments exec_Command {W Cmd Ctx}.
Arguments exec_CommandContext {W Cmd Ctx}.
Arguments exec_LookPath {W Cmd Ctx}.

(** The map [cmdParamMapping] is only read; a nil map reads like the empty
    one. *)
Record forcedParamsOsExec (W Cmd Ctx : Type) : Type := {
  exec : ExecInterface W Cmd Ctx;
  cmdParamMapping : gmap string string;
}.

Arguments exec {W Cmd Ctx}.
Arguments cmdParamMapping {W Cmd Ctx}.

Section ForcedParams.

Context {W Cmd Ctx : Type}.

(** [utilexec_New] stands for the executor that [utilexec.New()] returns. *)
Definition NewForcedParamsExec (utilexec_New : ExecInterface W Cmd Ctx)
           (cmdParamMapping : gmap string string) : forcedParamsOsExec W Cmd Ctx :=
  {| exec := utilexec_New; cmdParamMapping := cmdParamMapping |}.

Definition Command (e : forcedParamsOsExec W Cmd Ctx) (cmd : string) (args : list string)
  : Cmd :=
  let params : list string := [] in
  let value := default "" (cmdParamMapping e !! cmd) in
  let params :=
    if negb (String.eqb value "")
    then (params ++ GoString.Split value " ")%list
    else params in
  let params := (params ++ args)%list in
  exec_Command (exec e) cmd params.

Definition CommandContext (e : forcedParamsOsExec W Cmd Ctx) (ctx : Ctx) (cmd : string)
           (args : list string) : Cmd :=
  exec_CommandContext (exec e) ctx cmd args.

Definition LookPath (e : forcedParamsOsExec W Cmd Ctx) (file : string)
  : IO W (string * option error) :=
  exec_LookPath (exec e) file.

End ForcedParams.

(** [unix.Stat_t], as far as the file reads it, and the file type bits of
    [st_mode] on Linux. *)
Module unix.

Record Stat_t : Set := {
  Mode : Z;
}.

Definition S_IFMT : Z := 0xf000.
Definition S_IFBLK : Z := 0x6000.

End unix.

(** The remaining calls out of the file: [unix.Stat], [os.IsExist] and
    [mount.CleanupMountPoint] of k8s.io/mount-utils, whose last argument is
    [extensiveMountPointCheck]. *)
Record Host (W : Type) : Type := {
  unix_Stat : string -> IO W (unix.Stat_t + error);
  os_IsExist : option error -> bool;
  mount_CleanupMountPoint : string -> Mounter W -> bool -> IO W (option error);
}.

Arguments unix_Stat {W}.
Arguments os_IsExist {W}.
Arguments mount_CleanupMountPoint {W}.

(** The permission literal [0644] of the source, in decimal. *)
Definition perm_0644 : Z := 420.

Section Remaining.

Context {W : Type} (sys : OS W) (host : Host W).

Local Open Scope io_scope.

Definition unmountAndCleanupMountPoint (path : string) (mounter : Mounter W)
  : IO W (option error) :=
  call err := unmount path mounter in
  match err with
  | Some err => io_ret (Some err)
  | None => mount_CleanupMountPoint host path mounter true
  end.

Definition isBlockDevice (volumePath : string) : IO W (bool * option error) :=
  call r := unix_Stat host volumePath in
  match r with
  | inr err => io_ret (false, Some err)
  | inl stat =>
      if Z.land (unix.Mode stat) unix.S_IFMT =? unix.S_IFBLK
      then io_ret (true, None)
      else io_ret (false, None)
  end.

(** [os.OpenFile] returns a file or an error, never both: when the file is
    not nil the error that [makeFile] returns is the one of [Close]. *)
Definition makeFile (pathname : string) : IO W (option error) :=
  call f := os_OpenFile sys pathname os.O_CREATE perm_0644 in
  match f with
  | inl f =>
      call err := File_Close sys f in
      io_ret err
  | inr err =>
      if negb (os_IsExist host (Some err)) then io_ret (Some err)
      else io_ret None
  end.

End Remaining.

(** *** Vocabulary for the properties of the remaining code *)

(** [strings.Join(elems, sep)] for a separator of one byte. *)
Fixpoint joinWith (sep : ascii) (elems : list string) : string :=
  match elems with
  | [] => ""
  | [s] => s
  | s :: rest => s +:+ String sep (joinWith sep rest)
  end.

(** The number of bytes of [s] equal to [c]. *)
Fixpoint countByte (c : ascii) (s : string) : nat :=
  match s with
  | EmptyString => 0%nat
  | String a s' => ((if Ascii.eqb a c then 1 else 0) + countByte c s')%nat
  end.

(** The keys that [getVolumeOptions] reads. *)
Definition recognizedKeys (I : Imports) : list string :=
  [ "staleReplicaTimeout"; "share"; "migratable"; "encrypted"; "numberOfReplicas";
    "replicaAutoBalance"; "dataLocality"; "disableRevisionCounter";
    "unmapMarkSnapChainRemoved"; "replicaSoftAntiAffinity";
    "replicaZoneSoftAntiAffinity"; "replicaDiskSoftAntiAffinity"; "fromBackup";
    "backupTargetName"; "dataSource"; BackingImageParameterName I;
    "recurringJobSelector"; "diskSelector"; "nodeSelector"; "dataEngine"; "frontend";
    "freezeFilesystemForSnapshot" ].

(** The keys whose value is parsed or validated, each with the message
    that wraps its error. *)
Definition validatedKeys : list (string * string) :=
  [ ("staleReplicaTimeout", "invalid parameter staleReplicaTimeout");
    ("share", "invalid parameter share");
    ("migratable", "invalid parameter migratable");
    ("encrypted", "invalid parameter encrypted");
    ("numberOfReplicas", "invalid parameter numberOfReplicas");
    ("replicaAutoBalance", "invalid parameter replicaAutoBalance");
    ("dataLocality", "invalid parameter dataLocality");
    ("disableRevisionCounter", "invalid parameter disableRevisionCounter");
    ("unmapMarkSnapChainRemoved", "invalid parameter unmapMarkSnapChainRemoved");
    ("replicaSoftAntiAffinity", "invalid parameter replicaSoftAntiAffinity");
    ("replicaZoneSoftAntiAffinity", "invalid parameter replicaZoneSoftAntiAffinity");
    ("replicaDiskSoftAntiAffinity", "invalid parameter replicaDiskSoftAntiAffinity");
    ("recurringJobSelector", "invalid json format of recurringJobSelector");
    ("freezeFilesystemForSnapshot", "invalid parameter freezeFilesystemForSnapshot") ].

(** What the block of a key makes of the value found under it: the run
    goes on, or the function returns without a descriptor and with
    [errors.Wrap(cause, message)].  The cause is nil for a replica count
    that parses to a negative number, where the error of [strconv.Atoi] is
    nil. *)
Inductive verdict : Type :=
| Accepted
| Rejected (cause : option error).

Definition parsed {A : Type} (r : A + error) : verdict :=
  match r with
  | inl _ => Accepted
  | inr err => Rejected (Some err)
  end.

Definition validated (r : option error) : verdict :=
  match r with
  | None => Accepted
  | Some err => Rejected (Some err)
  end.

(** The parser or validator that [getVolumeOptions] applies to the value
    of a key; a key that is only copied accepts every value. *)
Definition checkKey (I : Imports) (key value : string) : verdict :=
  if String.eqb key "staleReplicaTimeout" then parsed (strconv.Atoi value)
  else if String.eqb key "share" then parsed (strconv.ParseBool value)
  else if String.eqb key "migratable" then parsed (strconv.ParseBool value)
  else if String.eqb key "encrypted" then parsed (strconv.ParseBool value)
  else if String.eqb key "numberOfReplicas" then
    match strconv.Atoi value with
    | inr err => Rejected (Some err)
    | inl nor => if nor <? 0 then Rejected None else Accepted
    end
  else if String.eqb key "replicaAutoBalance" then
    validated (ValidateReplicaAutoBalance I value)
  else if String.eqb key "dataLocality" then validated (ValidateDataLocality I value)
  else if String.eqb key "disableRevisionCounter" then parsed (strconv.ParseBool value)
  else if String.eqb key "unmapMarkSnapChainRemoved" then
    validated (ValidateUnmapMarkSnapChainRemoved I "" value)
  else if String.eqb key "replicaSoftAntiAffinity" then
    validated (ValidateReplicaSoftAntiAffinity I value)
  else if String.eqb key "replicaZoneSoftAntiAffinity" then
    validated (ValidateReplicaZoneSoftAntiAffinity I value)
  else if String.eqb key "replicaDiskSoftAntiAffinity" then
    validated (ValidateReplicaDiskSoftAntiAffinity I value)
  else if String.eqb key "recurringJobSelector" then
    parsed (json_Unmarshal_RecurringJobs I value)
  else if String.eqb key "freezeFilesystemForSnapshot" then
    validated (ValidateFreezeFilesystemForSnapshot I value)
  else Accepted.

(** Every key of [keys] that is present in the map has a value that its
    block accepts. *)
Definition acceptedAll (I : Imports) (m : gmap string string)
           (keys : list (string * string)) : Prop :=
  forall key message value,
    (key, message) ∈ keys -> m !! key = Some value -> checkKey I key value = Accepted.

(** The validated keys other than [migratable]. *)
Definition otherKeys : list (string * string) :=
  filter (fun entry => entry.1 <> "migratable") validatedKeys.

(** Two options maps have the same entries at the keys of [keys]. *)
Definition agreeOn (keys : list string) (m1 m2 : gmap string string) : Prop :=
  forall k, k ∈ keys -> m1 !! k = m2 !! k.

(** The sentinel file of the probe:
    [path.Join(targetPath, tempTestMountPointValidStatusFile)]. *)
Definition sentinelOf (path : string) : string :=
  GoPath.Join path tempTestMountPointValidStatusFile.

(** The calls that change the mount table or the directory tree. *)
Definition changesMounts (c : Fake.syscall) : bool :=
  match c with
  | Fake.Unmount_ _ | Fake.UnmountWithForce_ _ _ | Fake.MkdirAll_ _ _ => true
  | _ => false
  end.

(** A script that differs from [s] in the answer of [Readdirnames]. *)
Definition withReaddirnames (s : Fake.script) (answer : list string * option error)
  : Fake.script :=
  {| Fake.on_IsMountPoint := Fake.on_IsMountPoint s;
     Fake.on_Unmount := Fake.on_Unmount s;
     Fake.forceful := Fake.forceful s;
     Fake.on_OpenFile := Fake.on_OpenFile s;
     Fake.on_Readdirnames := answer;
     Fake.on_WriteString := Fake.on_WriteString s;
     Fake.on_MkdirAll := Fake.on_MkdirAll s;
     Fake.on_Stat := Fake.on_Stat s;
     Fake.on_Statfs := Fake.on_Statfs s |}.

(** *** Test doubles for the remaining code *)

(** A host whose [stat] answers as given, for which no error is of the
    already-exists class, and whose cleanup removes the directory. *)
Definition scriptedHost (onStat : unix.Stat_t + error) : Host (list Fake.syscall) := {|
  unix_Stat path := Fake.answer (Fake.Stat_ path) onStat;
  os_IsExist err := false;
  mount_CleanupMountPoint path mounter extensiveMountPointCheck :=
    Fake.answer (Fake.Remove_ path) None;
|}.

(** The path exists and is a regular file. *)
Definition regularFile : Fake.script := {|
  Fake.on_IsMountPoint := (false, None);
  Fake.on_Unmount := None;
  Fake.forceful := true;
  Fake.on_OpenFile := fun name => inr (PathError "open" name (Errno ENOTDIR));
  Fake.on_Readdirnames := ([], None);
  Fake.on_WriteString := None;
  Fake.on_MkdirAll := None;
  Fake.on_Stat := inl {| IsDir := false |};
  Fake.on_Statfs := inr (Errno ENOENT);
|}.

(** An empty directory mounted at [/mnt/vol]: [Readdirnames] answers with
    [io.EOF]. *)
Definition emptyDirectory : Fake.script :=
  withReaddirnames Fake.healthy ([], Some io_EOF).

(** The descriptor that the fixture resolves an options map to; the
    default descriptor when the run returns none. *)
Definition resolved (m : gmap string string) : Volume :=
  default (defaultVolume Fixture.imports) (getVolumeOptions Fixture.imports "pvc-1" m).1.1.

(** An executor whose commands are the name and the arguments they were
    built from. *)
Definition recordingExec : ExecInterface unit (string * list string) unit := {|
  exec_Command cmd args := (cmd, args);
  exec_CommandContext ctx cmd args := (cmd, args);
  exec_LookPath file := io_ret (file, None);
|}.

(** Block-device formatting with forced feature flags. *)
Definition formatExec : forcedParamsOsExec unit (string * list string) unit :=
  NewForcedParamsExec recordingExec {[ "mkfs.ext4" := "-O ^64bit,^metadata_csum" ]}.

(* ===================================================================== *)
(** ** Proof steps *)
(* ===================================================================== *)

(** One block of [getVolumeOptions] in a run that ends with a descriptor:
    the block did not return, so the run goes on with the value [x] it
    produced; [E] is the equation of the block. *)
Ltac block_continues_as H x E :=
  match type of H with
  | match ?e with inl _ => _ | inr _ => _ end = (Some _, _, _) =>
      let r := fresh "r" in
      destruct e as [x | r] eqn:E;
      [ | exfalso; clear - E H; subst r; repeat (case_match; simplify_eq) ]
  end.

(** The same for a block whose equation is not needed. *)
Ltac block_skipped H :=
  let x := fresh "x" in
  let E := fresh "Hblock" in
  block_continues_as H x E; try (destruct x as [? ?]); clear E.

Ltac in_fields :=
  unfold BackingImageInfoFields;
  repeat first [apply list_elem_of_here | apply list_elem_of_further].

Ltac out_fields :=
  unfold BackingImageInfoFields; repeat rewrite not_elem_of_cons;
  repeat split; first [discriminate | apply not_elem_of_nil].

(** One block of [getVolumeOptions] in a run with any outcome: either the
    block returned, and [tac] settles the goal from its equation, or the
    run goes on with the value [x] it produced. *)
Ltac block_cases H x E tac :=
  match type of H with
  | match ?e with inl _ => _ | inr _ => _ end = _ =>
      let r := fresh "r" in
      destruct e as [x | r] eqn:E;
      [ | subst r; repeat (case_match; simplify_eq);
          cbn [GoError.Wrap] in *; simplify_eq; tac ]
  end.

Ltac in_list := repeat first [apply list_elem_of_here | apply list_elem_of_further].

(* ===================================================================== *)
(** ** Library models on concrete inputs *)
(* ===================================================================== *)

Example Atoi_2880 : strconv.Atoi "2880" = inl 2880.
Proof. reflexivity. Qed.

Example Atoi_negative : strconv.Atoi "-1" = inl (-1).
Proof. reflexivity. Qed.

Example Atoi_letters : strconv.Atoi "12a" = inr (NumError "Atoi" "12a" strconv.ErrSyntax).
Proof. reflexivity. Qed.

Example Atoi_sign_only : strconv.Atoi "-" = inr (NumError "Atoi" "-" strconv.ErrSyntax).
Proof. reflexivity. Qed.

Example Atoi_min : strconv.Atoi "-9223372036854775808" = inl (- 2 ^ 63).
Proof. reflexivity. Qed.

Example Atoi_overflow :
  strconv.Atoi "9223372036854775808"
  = inr (NumError "Atoi" "9223372036854775808" strconv.ErrRange).
Proof. reflexivity. Qed.

Example ParseBool_T : strconv.ParseBool "T" = inl true.
Proof. reflexivity. Qed.

Example ParseBool_yes : strconv.ParseBool "yes" = inr (NumError "ParseBool" "yes" strconv.ErrSyntax).
Proof. reflexivity. Qed.

Example Split_fields : GoString.Split "a,b," "," = ["a"; "b"; ""].
Proof. reflexivity. Qed.

Example Contains_not_mounted :
  GoString.Contains "umount: /mnt/vol: not mounted." "not mounted" = true.
Proof. reflexivity. Qed.

Example Clean_paths :
  GoPath.Clean "" = "." /\
  GoPath.Clean "abc/def/" = "abc/def" /\
  GoPath.Clean "a//b/./c/.." = "a/b" /\
  GoPath.Clean "/../a/b/../././/c" = "/a/c" /\
  GoPath.Clean "a/../.." = ".." /\
  GoPath.Clean "../../a" = "../../a" /\
  GoPath.Clean "/a/.." = "/".
Proof. repeat split. Qed.

Example Join_paths :
  GoPath.Join "/mnt/vol" "f.tmp" = "/mnt/vol/f.tmp" /\
  GoPath.Join "/mnt/vol/" "f.tmp" = "/mnt/vol/f.tmp" /\
  GoPath.Join "/mnt//vol/." "f.tmp" = "/mnt/vol/f.tmp" /\
  GoPath.Join "/" "f.tmp" = "/f.tmp" /\
  GoPath.Join "" "f.tmp" = "f.tmp" /\
  GoPath.Join "a" "" = "a" /\
  GoPath.Join "" "" = "".
Proof. repeat split. Qed.

Example not_exist_not_corrupt :
  GoError.os_IsNotExist (Some (PathError "stat" "/mnt/vol" (Errno ENOENT))) = true /\
  GoError.mount_IsCorruptedMnt (Some (PathError "stat" "/mnt/vol" (Errno ENOENT))) = false /\
  GoError.mount_IsCorruptedMnt (Some (PathError "stat" "/mnt/vol" (Errno ESTALE))) = true.
Proof. repeat split. Qed.

(** An error that the mount table classifies as corruption is never a
    not-exist error: the first test of [ensureMountPoint] does not hide a
    corrupted mount. *)
Lemma corrupted_is_not_absent err :
  GoError.mount_IsCorruptedMnt err = true -> GoError.os_IsNotExist err = false.
Proof.
  destruct err as [e |]; [| discriminate]. cbn.
  destruct (GoError.underlyingError e) as [| | n | | | | |]; try discriminate.
  by destruct n.
Qed.

(* ===================================================================== *)
(** ** Properties of the resolver *)
(* ===================================================================== *)

(** The keys accepted so far, and one more. *)
Lemma acceptedAll_snoc I (m : gmap string string) keys key message :
  acceptedAll I m keys ->
  (forall value, m !! key = Some value -> checkKey I key value = Accepted) ->
  acceptedAll I m (keys ++ [(key, message)]).
Proof.
  intros Hkeys Hkey k msg v Hin Hv.
  apply elem_of_app in Hin as [Hin | Hin]; [by eapply Hkeys |].
  apply list_elem_of_singleton in Hin. simplify_eq. by apply Hkey.
Qed.

Lemma otherKeys_spec key message :
  (key, message) ∈ otherKeys <-> (key, message) ∈ validatedKeys /\ key <> "migratable".
Proof. unfold otherKeys. rewrite list_elem_of_filter. cbn. tauto. Qed.

(** The parser or validator of a key whose name is known. *)
Ltac key_checked :=
  unfold checkKey; cbn [String.eqb Ascii.eqb Bool.eqb]; unfold parsed, validated.

(** The block did not return: the value of its key, if any, is accepted. *)
Ltac block_accepts E :=
  let v := fresh "v" in
  let Hv := fresh "Hv" in
  intros v Hv; rewrite Hv in E; key_checked;
  repeat (case_match; simplify_eq); done.

(** The block returned: its key is the one that is rejected, after the
    keys accepted so far. *)
Ltac block_rejects Hacc :=
  idtac;
  match goal with
  | Hl : _ !! ?k = Some ?v |- _ =>
      match type of Hacc with
      | acceptedAll _ _ ?before =>
          exists before, k; eexists _, _, v, _;
          split; [reflexivity |];
          split; [exact Hacc |];
          split; [exact Hl |];
          split; [key_checked;
                  repeat match goal with
                         | Hx : ?t = _ |- context [?t] => rewrite Hx
                         end;
                  reflexivity
                 | cbn [GoError.Wrap]; reflexivity]
      end
  end.

(** One validated block in a run that returns no descriptor. *)
Ltac block_checked H Hacc key message :=
  let x := fresh "x" in
  let E := fresh "E" in
  block_cases H x E ltac:(block_rejects Hacc);
  apply (acceptedAll_snoc _ _ _ key message) in Hacc;
  [| clear - E; block_accepts E];
  clear E.

Section ResolverFacts.

Context (I : Imports).

(** The key written by the downgrade is not read again by a block with a
    fixed key name. *)
Lemma lookup_after_downgrade (m : gmap string string) (k v : string) :
  k <> "migratable" -> <["migratable" := v]> m !! k = m !! k.
Proof. intros Hk. by rewrite lookup_insert_ne. Qed.

(** Whatever is returned, a descriptor comes without an error. *)
Lemma getVolumeOptions_descriptor_no_error volumeID m vol err m' :
  getVolumeOptions I volumeID m = (Some vol, err, m') -> err = None.
Proof.
  unfold getVolumeOptions. intros H. cbv zeta in H.
  repeat block_skipped H.
  by simplify_eq.
Qed.

(** C5: the defaults of a descriptor.  The stale-replica timeout is 2880
    whenever its key is absent or parses to an integer that is not
    positive; the revision counter is disabled whenever its key is absent;
    the data engine is v1 whenever its key is absent. *)
Theorem getVolumeOptions_defaults volumeID (m : gmap string string) vol err m' :
  getVolumeOptions I volumeID m = (Some vol, err, m') ->
  ((m !! "staleReplicaTimeout" = None \/
    exists s n, m !! "staleReplicaTimeout" = Some s /\ strconv.Atoi s = inl n /\ n <= 0) ->
   StaleReplicaTimeout vol = 2880) /\
  (m !! "disableRevisionCounter" = None -> RevisionCounterDisabled vol = true) /\
  (m !! "dataEngine" = None -> DataEngine vol = "v1").
Proof.
  unfold getVolumeOptions. intros H. cbv zeta in H.
  block_continues_as H srt Hsrt.
  block_skipped H.
  block_continues_as H mig Hmig. destruct mig as [mig m2].
  assert (Hkeep : forall k, k <> "migratable" -> m2 !! k = m !! k).
  { intros k Hk. clear - Hmig Hk.
    repeat (case_match; simplify_eq); by rewrite ?lookup_insert_ne. }
  clear Hmig.
  do 4 block_skipped H.
  block_continues_as H disabled Hrev.
  repeat block_skipped H.
  simplify_eq. cbn [StaleReplicaTimeout RevisionCounterDisabled DataEngine].
  split; [| split].
  - intros [Habs | (s & n & Hs & Hn & Hle)].
    + rewrite Habs in Hsrt. by simplify_eq.
    + rewrite Hs, Hn in Hsrt. simplify_eq.
      destruct (Z.leb_spec srt 0); [done | lia].
  - intros Habs. rewrite Hkeep, Habs in Hrev by done. by simplify_eq.
  - intros Habs. by rewrite Hkeep, Habs by done.
Qed.

(** The downgrade block leaves the other keys alone. *)
Lemma migratable_block_keeps (m m2 : gmap string string) (mode : string) (mig : bool) :
  match m !! "migratable" with
  | Some migratable =>
      match strconv.ParseBool migratable with
      | inl isMigratable =>
          if isMigratable && negb (String.eqb mode longhorn.AccessModeReadWriteMany)
          then inl (false, <["migratable" := strconv.FormatBool false]> m)
          else inl (isMigratable, m)
      | inr err =>
          inr (None, GoError.Wrap (Some err) "invalid parameter migratable", m)
      end
  | None => inl (false, m)
  end = (inl (mig, m2) : (bool * gmap string string) + outcome) ->
  (m2 = m \/
   (m2 = <["migratable" := "false"]> m /\ mig = false /\
    exists s, m !! "migratable" = Some s /\ strconv.ParseBool s = inl true /\
              mode <> longhorn.AccessModeReadWriteMany)) /\
  (mig = true ->
   mode = longhorn.AccessModeReadWriteMany /\
   exists s, m !! "migratable" = Some s /\ strconv.ParseBool s = inl true) /\
  (forall k, k <> "migratable" -> m2 !! k = m !! k).
Proof.
  intros H.
  destruct (m !! "migratable") as [s |] eqn:Hs;
    [| simplify_eq; split; [by left |]; split; done].
  destruct (strconv.ParseBool s) as [b |] eqn:Hb; [| discriminate].
  destruct b; cbn in H.
  - destruct (String.eqb_spec mode longhorn.AccessModeReadWriteMany) as [-> | Hne];
      cbn in H; simplify_eq.
    + split; [by left |]. split; [| done]. intros _. split; [done |]. by exists s.
    + split; [right; split; [done |]; split; [done |]; by exists s |].
      split; [done |]. intros k Hk. by rewrite lookup_insert_ne.
  - simplify_eq. split; [by left |]. split; done.
Qed.

(** A run that returns no descriptor has met a key whose value its block
    rejects, after accepting the keys before it in the order of the
    source; what it returns as the error is the cause of the rejection
    wrapped with the message of that key. *)
Lemma getVolumeOptions_rejection volumeID (m : gmap string string) err m' :
  getVolumeOptions I volumeID m = (None, err, m') ->
  exists before key message after value cause,
    validatedKeys = (before ++ (key, message) :: after)%list /\
    acceptedAll I m before /\
    m !! key = Some value /\
    checkKey I key value = Rejected cause /\
    err = GoError.Wrap cause message.
Proof.
  unfold getVolumeOptions. intros H. cbv zeta in H.
  assert (Hacc : acceptedAll I m []) by (intros ? ? ? Hin; by apply elem_of_nil in Hin).
  block_checked H Hacc "staleReplicaTimeout" "invalid parameter staleReplicaTimeout".
  block_checked H Hacc "share" "invalid parameter share".
  match type of H with
  | match ?e with inl _ => _ | inr _ => _ end = _ =>
      destruct e as [[mig m2] | r] eqn:Hmig
  end.
  2:{ subst r; repeat (case_match; simplify_eq);
        cbn [GoError.Wrap] in *; simplify_eq; block_rejects Hacc. }
  apply (acceptedAll_snoc _ _ _ "migratable" "invalid parameter migratable") in Hacc;
    [| clear - Hmig; block_accepts Hmig].
  apply migratable_block_keeps in Hmig as (_ & _ & Hkeep).
  repeat match type of H with
         | context [m2 !! ?k] => rewrite (Hkeep k) in H by done
         end.
  clear Hkeep.
  block_checked H Hacc "encrypted" "invalid parameter encrypted".
  block_checked H Hacc "numberOfReplicas" "invalid parameter numberOfReplicas".
  block_checked H Hacc "replicaAutoBalance" "invalid parameter replicaAutoBalance".
  block_checked H Hacc "dataLocality" "invalid parameter dataLocality".
  block_checked H Hacc "disableRevisionCounter" "invalid parameter disableRevisionCounter".
  block_checked H Hacc "unmapMarkSnapChainRemoved"
                "invalid parameter unmapMarkSnapChainRemoved".
  block_checked H Hacc "replicaSoftAntiAffinity" "invalid parameter replicaSoftAntiAffinity".
  block_checked H Hacc "replicaZoneSoftAntiAffinity"
                "invalid parameter replicaZoneSoftAntiAffinity".
  block_checked H Hacc "replicaDiskSoftAntiAffinity"
                "invalid parameter replicaDiskSoftAntiAffinity".
  block_checked H Hacc "recurringJobSelector" "invalid json format of recurringJobSelector".
  block_checked H Hacc "freezeFilesystemForSnapshot"
                "invalid parameter freezeFilesystemForSnapshot".
  discriminate H.
Qed.

(** Where [migratable] parses, the key that a run rejects is another one. *)
Lemma getVolumeOptions_rejects_other_key volumeID (m : gmap string string) s b err m' :
  m !! "migratable" = Some s ->
  strconv.ParseBool s = inl b ->
  getVolumeOptions I volumeID m = (None, err, m') ->
  exists key message value cause,
    (key, message) ∈ otherKeys /\
    m !! key = Some value /\
    checkKey I key value = Rejected cause /\
    err = GoError.Wrap cause message.
Proof.
  intros Hm Hs H.
  apply getVolumeOptions_rejection in H
    as (before & key & message & after & value & cause & Hkeys & _ & Hv & Hc & ->).
  exists key, message, value, cause. repeat split; try done.
  apply otherKeys_spec. split.
  - rewrite Hkeys. apply elem_of_app. right. apply list_elem_of_here.
  - intros ->. rewrite Hm in Hv. simplify_eq.
    unfold checkKey in Hc. cbn [String.eqb Ascii.eqb Bool.eqb] in Hc.
    rewrite Hs in Hc. discriminate Hc.
Qed.

(** C2, amended: when [migratable] parses to true and the access mode
    does not resolve to ReadWriteMany, the downgrade is not an error.  A
    descriptor with [Migratable = false] is returned, without error and
    with [migratable] set to [false] in the map, whenever every other
    validated key that is present has a value that its block accepts;
    every descriptor returned is of this kind; an error that is returned
    is the failure of another key, wrapped with the message of that key;
    the results are those of the same map with [migratable = false].  The
    map with the single entry [migratable = true] resolves to a descriptor
    with [Migratable = false]. *)
Theorem getVolumeOptions_migratable_downgrade volumeID (m : gmap string string) s :
  m !! "migratable" = Some s ->
  strconv.ParseBool s = inl true ->
  accessModeNotRWX m ->
  (acceptedAll I m otherKeys ->
   exists vol,
     getVolumeOptions I volumeID m = (Some vol, None, <["migratable" := "false"]> m) /\
     Migratable vol = false) /\
  (forall vol err m', getVolumeOptions I volumeID m = (Some vol, err, m') ->
                      Migratable vol = false /\ err = None /\
                      m' = <["migratable" := "false"]> m) /\
  (forall vol err m', getVolumeOptions I volumeID m = (vol, Some err, m') ->
                      vol = None /\
                      exists key message value cause,
                        (key, message) ∈ otherKeys /\
                        m !! key = Some value /\
                        checkKey I key value = Rejected (Some cause) /\
                        err = withMessage cause message) /\
  (getVolumeOptions I volumeID m).1
    = (getVolumeOptions I volumeID (<["migratable" := "false"]> m)).1 /\
  getVolumeOptions I volumeID {[ "migratable" := "true" ]}
    = (Some (defaultVolume I), None, {[ "migratable" := "false" ]}) /\
  Migratable (defaultVolume I) = false.
Proof.
  intros Hm Hs Hshare.
  assert (Hdescriptor : forall vol err m',
             getVolumeOptions I volumeID m = (Some vol, err, m') ->
             Migratable vol = false /\ err = None /\ m' = <["migratable" := "false"]> m).
  { intros vol err m' H.
    assert (err = None) as -> by (by eapply getVolumeOptions_descriptor_no_error).
    unfold getVolumeOptions in H. cbv zeta in H.
    block_skipped H.
    block_continues_as H mode Hmode.
    block_continues_as H mig Hmig. destruct mig as [mig m2].
    repeat block_skipped H.
    simplify_eq. cbn [Migratable].
    rewrite Hm, Hs in Hmig.
    destruct Hshare as [Hsh | (share & Hsh & Hp)]; rewrite Hsh, ?Hp in Hmode;
      simplify_eq; cbn in Hmig; by simplify_eq. }
  split; [| split; [exact Hdescriptor | split; [| split; [| split]]]].
  - intros Hothers.
    destruct (getVolumeOptions I volumeID m) as [[[vol |] err] m'] eqn:H.
    + destruct (Hdescriptor _ _ _ eq_refl) as (Hmig & -> & ->). by exists vol.
    + exfalso.
      destruct (getVolumeOptions_rejects_other_key _ _ _ _ _ _ Hm Hs H)
        as (key & message & value & cause & Hin & Hv & Hc & _).
      rewrite (Hothers _ _ _ Hin Hv) in Hc. discriminate Hc.
  - intros [vol |] err m' H.
    + apply getVolumeOptions_descriptor_no_error in H. discriminate H.
    + split; [done |].
      destruct (getVolumeOptions_rejects_other_key _ _ _ _ _ _ Hm Hs H)
        as (key & message & value & [cause |] & Hin & Hv & Hc & Herr);
        [| discriminate Herr].
      exists key, message, value, cause. repeat split; try done.
      cbn in Herr. by simplify_eq.
  - unfold getVolumeOptions. cbv zeta.
    rewrite !(lookup_after_downgrade m "staleReplicaTimeout") by done.
    rewrite !(lookup_after_downgrade m "share") by done.
    rewrite lookup_insert_eq, Hm, Hs.
    destruct (m !! "staleReplicaTimeout") as [srt |];
      [destruct (strconv.Atoi srt) as [n | e]; [| reflexivity] |];
      (destruct Hshare as [-> | (share & -> & ->)]; reflexivity).
  - reflexivity.
  - reflexivity.
Qed.

(** C4: a negative replica count.  The error of [strconv.Atoi] is nil, so
    [errors.Wrap] returns nil and the function returns neither a
    descriptor nor an error. *)
Theorem getVolumeOptions_negative_replicas volumeID :
  getVolumeOptions I volumeID {[ "numberOfReplicas" := "-1" ]}
    = (None, None, {[ "numberOfReplicas" := "-1" ]}).
Proof. reflexivity. Qed.

(** The other failures are errors that carry the name of the field. *)
Lemma getVolumeOptions_bad_staleReplicaTimeout volumeID :
  getVolumeOptions I volumeID {[ "staleReplicaTimeout" := "soon" ]}
    = (None,
       Some (withMessage (NumError "Atoi" "soon" strconv.ErrSyntax)
               "invalid parameter staleReplicaTimeout"),
       {[ "staleReplicaTimeout" := "soon" ]}).
Proof. reflexivity. Qed.

Lemma getVolumeOptions_bad_share volumeID :
  getVolumeOptions I volumeID {[ "share" := "yes" ]}
    = (None,
       Some (withMessage (NumError "ParseBool" "yes" strconv.ErrSyntax)
               "invalid parameter share"),
       {[ "share" := "yes" ]}).
Proof. reflexivity. Qed.

End ResolverFacts.

(** The run of C5 on the map with the single entry
    [staleReplicaTimeout = 0]. *)
Lemma getVolumeOptions_defaults_witness :
  let m : gmap string string := {[ "staleReplicaTimeout" := "0" ]} in
  let vol := defaultVolume Fixture.imports in
  getVolumeOptions Fixture.imports "pvc-1" m = (Some vol, None, m) /\
  StaleReplicaTimeout vol = 2880 /\
  RevisionCounterDisabled vol = true /\
  DataEngine vol = "v1".
Proof.
  intros m vol.
  assert (E : getVolumeOptions Fixture.imports "pvc-1" m = (Some vol, None, m))
    by (vm_compute; reflexivity).
  split; [exact E |].
  destruct (getVolumeOptions_defaults _ _ _ _ _ _ E) as (Hsrt & Hrev & Heng).
  split; [| split].
  - apply Hsrt. right. exists "0", 0. split; [reflexivity | split; [reflexivity | lia]].
  - apply Hrev. reflexivity.
  - apply Heng. reflexivity.
Defined.

(** The downgrade on a map that also asks for a single writer. *)
Lemma getVolumeOptions_migratable_downgrade_witness :
  let m : gmap string string := <["migratable" := "true"]> {[ "share" := "false" ]} in
  exists vol,
    getVolumeOptions Fixture.imports "pvc-1" m
      = (Some vol, None, <["migratable" := "false"]> m) /\
    Migratable vol = false.
Proof.
  intros m.
  refine (proj1 (getVolumeOptions_migratable_downgrade Fixture.imports "pvc-1" m "true" _ _ _) _).
  - reflexivity.
  - reflexivity.
  - right. exists "false". split; reflexivity.
  - intros key message value [_ Hne]%otherKeys_spec Hv.
    unfold m in Hv. rewrite lookup_insert_ne in Hv by done.
    apply lookup_singleton_Some in Hv as [<- <-]. reflexivity.
Defined.

(** C2 as stated fails: [migratable] parses to true and [share] is absent,
    yet the run returns an error and no descriptor, because a later key
    does not parse. *)
Lemma getVolumeOptions_later_key_fails :
  let m : gmap string string := <["migratable" := "true"]> {[ "encrypted" := "yes" ]} in
  m !! "migratable" = Some "true" /\
  strconv.ParseBool "true" = inl true /\
  m !! "share" = None /\
  getVolumeOptions Fixture.imports "pvc-1" m
    = (None,
       Some (withMessage (NumError "ParseBool" "yes" strconv.ErrSyntax)
               "invalid parameter encrypted"),
       <["migratable" := "false"]> m).
Proof.
  intros m. split; [| split; [| split]]; vm_compute; reflexivity.
Qed.

(* ===================================================================== *)
(** ** Properties of the backing-image folding *)
(* ===================================================================== *)

Section BackingImageFacts.

Context (name dsType checksum dsParams : string)
        (json_Marshal : option (gmap string string) -> string).

(** One turn of the loop on two distinct, allocated maps: the entry of
    [v] moves from the backing-image map to the volume parameters. *)
Lemma liftField_distinct (vp bp : nat) (v : string)
      (h : gmap nat (gmap string string)) (V B : gmap string string) :
  vp <> bp -> h !! vp = Some V -> h !! bp = Some B ->
  exists h',
    liftField vp bp v h = Some h' /\
    h' !! vp = Some (<[v := default "" (B !! v)]> V) /\
    h' !! bp = Some (delete v B) /\
    (forall r, r <> vp -> r <> bp -> h' !! r = h !! r).
Proof.
  intros Hne HV HB.
  unfold liftField, MapStore.mapAssign, MapStore.mapIndex, MapStore.mapDelete.
  rewrite HV, HB. cbn. rewrite lookup_insert_ne, HB by done.
  eexists. split; [reflexivity |]. split; [| split].
  - by rewrite lookup_insert_ne, lookup_insert_eq.
  - by rewrite lookup_insert_eq.
  - intros r Hvp Hbp. by rewrite !lookup_insert_ne.
Qed.

(** On one and the same map the turn deletes the entry: the assignment
    copies it onto itself and the deletion removes it. *)
Lemma liftField_aliased (p : nat) (v : string)
      (h : gmap nat (gmap string string)) (V : gmap string string) :
  h !! p = Some V ->
  liftField p p v h = Some (<[p := delete v V]> h).
Proof.
  intros HV.
  unfold liftField, MapStore.mapAssign, MapStore.mapIndex, MapStore.mapDelete.
  rewrite HV. cbn. rewrite lookup_insert_eq.
  by rewrite insert_insert_eq, delete_insert_eq.
Qed.

(** C6: on two distinct maps, the function moves exactly the three
    backing-image keys (name, data-source type, checksum) into the volume
    parameters and deletes them from the backing-image map; the
    serialisation of the backing-image map that remains is stored under
    the data-source-parameters key.  No other key of the volume
    parameters changes, and none of the three keys is in the map that is
    serialised. *)
Theorem updateVolumeParamsForBackingImage_split
        (vp bp : nat) (h : gmap nat (gmap string string)) (V B : gmap string string) :
  NoDup [name; dsType; checksum; dsParams] ->
  vp <> bp -> h !! vp = Some V -> h !! bp = Some B ->
  exists h' V' B',
    updateVolumeParamsForBackingImage name dsType checksum dsParams json_Marshal vp bp h
      = Some h' /\
    h' !! vp = Some V' /\ h' !! bp = Some B' /\
    (forall r, r <> vp -> r <> bp -> h' !! r = h !! r) /\
    (forall k, k ∈ BackingImageInfoFields name dsType checksum ->
               V' !! k = Some (default "" (B !! k)) /\ B' !! k = None) /\
    (forall k, k ∉ BackingImageInfoFields name dsType checksum -> B' !! k = B !! k) /\
    V' !! dsParams = Some (json_Marshal (Some B')) /\
    (forall k, k ∉ BackingImageInfoFields name dsType checksum -> k <> dsParams ->
               V' !! k = V !! k).
Proof.
  intros Hnd Hne HV HB.
  assert (Hkeys : name <> dsType /\ name <> checksum /\ name <> dsParams /\
                  dsType <> checksum /\ dsType <> dsParams /\ checksum <> dsParams).
  { apply NoDup_cons in Hnd as [Hn Hnd]. apply NoDup_cons in Hnd as [Hd Hnd].
    apply NoDup_cons in Hnd as [Hc _].
    repeat rewrite not_elem_of_cons in Hn. repeat rewrite not_elem_of_cons in Hd.
    repeat rewrite not_elem_of_cons in Hc. tauto. }
  destruct Hkeys as (Hnd1 & Hnc & Hnp & Hdc & Hdp & Hcp). clear Hnd.
  unfold updateVolumeParamsForBackingImage, BackingImageInfoFields.
  cbn [foldl mbind option_bind].
  destruct (liftField_distinct vp bp name h V B Hne HV HB)
    as (h1 & -> & HV1 & HB1 & Hr1).
  cbn [mbind option_bind].
  destruct (liftField_distinct vp bp dsType h1 _ _ Hne HV1 HB1)
    as (h2 & -> & HV2 & HB2 & Hr2).
  cbn [mbind option_bind].
  destruct (liftField_distinct vp bp checksum h2 _ _ Hne HV2 HB2)
    as (h3 & -> & HV3 & HB3 & Hr3).
  cbn [mbind option_bind]. unfold MapStore.mapAssign. rewrite HV3, HB3.
  eexists _, _, _. split; [reflexivity |].
  split; [by rewrite lookup_insert_eq |].
  split; [by rewrite lookup_insert_ne |].
  split; [intros r Hvp Hbp; by rewrite lookup_insert_ne, Hr3, Hr2, Hr1 |].
  split; [| split; [| split]].
  - intros k Hk. repeat rewrite elem_of_cons in Hk. rewrite elem_of_nil in Hk.
    destruct Hk as [-> | [-> | [-> | []]]].
    + split.
      * by rewrite !lookup_insert_ne, lookup_insert_eq by congruence.
      * by rewrite !lookup_delete_ne, lookup_delete_eq by congruence.
    + split.
      * by rewrite !lookup_insert_ne, lookup_insert_eq, lookup_delete_ne by congruence.
      * by rewrite !lookup_delete_ne, lookup_delete_eq by congruence.
    + split.
      * by rewrite !lookup_insert_ne, lookup_insert_eq, !lookup_delete_ne by congruence.
      * by rewrite lookup_delete_eq.
  - intros k Hk. repeat rewrite not_elem_of_cons in Hk. destruct Hk as (? & ? & ? & _).
    by rewrite !lookup_delete_ne by congruence.
  - by rewrite lookup_insert_eq.
  - intros k Hk Hp. repeat rewrite not_elem_of_cons in Hk. destruct Hk as (? & ? & ? & _).
    by rewrite !lookup_insert_ne by congruence.
Qed.

End BackingImageFacts.

(** The folding on a volume-parameter map with one entry and a
    backing-image map with a name, a checksum and a source address. *)
Lemma updateVolumeParamsForBackingImage_split_witness :
  let V : gmap string string := {[ "numberOfReplicas" := "3" ]} in
  let B : gmap string string :=
    <["backingImage" := "img1"]>
      (<["backingImageChecksum" := "c0ffee"]> {[ "url" := "https://images/img1" ]}) in
  let h : gmap nat (gmap string string) := <[0%nat := V]> {[ 1%nat := B ]} in
  exists h' V' B',
    updateVolumeParamsForBackingImage
      "backingImage" "backingImageDataSourceType" "backingImageChecksum"
      "backingImageDataSourceParameters" Fixture.marshal 0 1 h = Some h' /\
    h' !! 0%nat = Some V' /\ h' !! 1%nat = Some B' /\
    V' !! "backingImage" = Some "img1" /\
    V' !! "backingImageDataSourceType" = Some "" /\
    V' !! "backingImageChecksum" = Some "c0ffee" /\
    B' !! "backingImage" = None /\
    B' !! "url" = Some "https://images/img1" /\
    V' !! "backingImageDataSourceParameters" = Some (Fixture.marshal (Some B')) /\
    V' !! "numberOfReplicas" = Some "3".
Proof.
  intros V B h.
  destruct (updateVolumeParamsForBackingImage_split
              "backingImage" "backingImageDataSourceType" "backingImageChecksum"
              "backingImageDataSourceParameters" Fixture.marshal 0 1 h V B)
    as (h' & V' & B' & Hrun & HV & HB & _ & Hlift & Hrest & Hblob & Hkeep).
  - apply (bool_decide_unpack _). vm_compute. exact I.
  - discriminate.
  - reflexivity.
  - reflexivity.
  - exists h', V', B'.
    split; [exact Hrun |]. split; [exact HV |]. split; [exact HB |].
    split; [rewrite (proj1 (Hlift "backingImage" ltac:(in_fields))); reflexivity |].
    split; [rewrite (proj1 (Hlift "backingImageDataSourceType" ltac:(in_fields)));
            reflexivity |].
    split; [rewrite (proj1 (Hlift "backingImageChecksum" ltac:(in_fields))); reflexivity |].
    split; [exact (proj2 (Hlift "backingImage" ltac:(in_fields))) |].
    split; [rewrite (Hrest "url" ltac:(out_fields)); reflexivity |].
    split; [exact Hblob |].
    rewrite (Hkeep "numberOfReplicas" ltac:(out_fields)) by discriminate. reflexivity.
Defined.

(* ===================================================================== *)
(** ** Properties of requiresSharedAccess *)
(* ===================================================================== *)

(** C7, amended: for every capability that is nil or carries an access
    mode, [requiresSharedAccess] returns true whenever the descriptor is
    ReadWriteMany or migratable, and whenever the requested mode is one of
    the three multi-node modes. *)
Theorem requiresSharedAccess_shared vol cap mode :
  requestedMode cap = Some mode ->
  sharedVolume vol \/ multiNode mode ->
  requiresSharedAccess vol cap = Some true.
Proof.
  unfold requiresSharedAccess, requestedMode. intros -> H. cbn.
  f_equal.
  destruct H as [(v & -> & [Hrwx | Hmig]) | [-> | [-> | ->]]].
  - rewrite Hrwx. reflexivity.
  - rewrite Hmig. by rewrite orb_true_r.
  - by rewrite !orb_true_r.
  - by rewrite !orb_true_r.
  - by rewrite !orb_true_r.
Qed.

(** The function returns true in no other case. *)
Lemma requiresSharedAccess_true_inv vol cap :
  requiresSharedAccess vol cap = Some true ->
  sharedVolume vol \/ exists mode, requestedMode cap = Some mode /\ multiNode mode.
Proof.
  unfold requiresSharedAccess. fold (requestedMode cap).
  destruct (requestedMode cap) as [mode |]; [| discriminate]. cbn.
  intros [= H].
  rewrite !orb_true_iff in H. destruct H as [[[H | H] | H] | H].
  - left. destruct vol as [v |]; [| discriminate]. exists v. split; [done |].
    apply orb_true_iff in H as [H | H]; [left | by right].
    by apply String.eqb_eq.
  - right. exists mode. split; [done |]. left. by destruct mode.
  - right. exists mode. split; [done |]. right. left. by destruct mode.
  - right. exists mode. split; [done |]. right. right. by destruct mode.
Qed.

(** It panics exactly on a capability without access mode. *)
Lemma requiresSharedAccess_panics vol cap :
  requiresSharedAccess vol cap = None <->
  exists c, cap = Some c /\ csi.AccessMode c = None.
Proof.
  unfold requiresSharedAccess. split.
  - destruct cap as [[[am |]] |]; cbn; [discriminate | | discriminate].
    intros _. by eexists.
  - intros (c & -> & Hnil). by rewrite Hnil.
Qed.

(** A ReadWriteMany descriptor asked for by a single-node writer. *)
Lemma requiresSharedAccess_shared_witness :
  requiresSharedAccess
    (Some sharedDescriptor)
    (Some {| csi.AccessMode := Some {| csi.Mode := csi.SINGLE_NODE_WRITER |} |})
  = Some true.
Proof.
  apply (requiresSharedAccess_shared _ _ csi.SINGLE_NODE_WRITER).
  - reflexivity.
  - left. exists sharedDescriptor. split; [reflexivity | left; reflexivity].
Defined.

(** C7 as stated fails: the descriptor is ReadWriteMany, but the capability
    has no access mode and the call panics instead of returning true. *)
Lemma requiresSharedAccess_nil_access_mode :
  AccessMode sharedDescriptor = longhorn.AccessModeReadWriteMany /\
  requiresSharedAccess (Some sharedDescriptor) (Some {| csi.AccessMode := None |}) = None /\
  requiresSharedAccess (Some sharedDescriptor) (Some {| csi.AccessMode := None |})
    <> Some true.
Proof. repeat split. discriminate. Qed.

(* ===================================================================== *)
(** ** 64-bit arithmetic *)
(* ===================================================================== *)

Lemma int64_fits x : fitsInt64 x -> int64 x = x.
Proof.
  unfold fitsInt64, int64. intros H.
  rewrite Z.mod_small by lia. lia.
Qed.

Lemma int64_range x : fitsInt64 (int64 x).
Proof.
  unfold fitsInt64, int64.
  pose proof (Z.mod_pos_bound (x + 2 ^ 63) (2 ^ 64) ltac:(lia)). lia.
Qed.

Lemma int64_congr x y : x mod 2 ^ 64 = y mod 2 ^ 64 -> int64 x = int64 y.
Proof.
  unfold int64. intros H.
  rewrite <- (Zplus_mod_idemp_l x), <- (Zplus_mod_idemp_l y), H. reflexivity.
Qed.

Lemma int64_mod x : int64 x mod 2 ^ 64 = x mod 2 ^ 64.
Proof.
  unfold int64.
  rewrite Zminus_mod_idemp_l.
  f_equal. lia.
Qed.

Lemma int64_sub x y : int64 (int64 x - int64 y) = int64 (x - y).
Proof.
  apply int64_congr.
  rewrite Zminus_mod, !int64_mod, <- Zminus_mod. reflexivity.
Qed.

Lemma int64_mul x y : int64 (int64 x * int64 y) = int64 (x * y).
Proof.
  apply int64_congr.
  rewrite Zmult_mod, !int64_mod, <- Zmult_mod. reflexivity.
Qed.

(* ===================================================================== *)
(** ** Properties of the mount lifecycle *)
(* ===================================================================== *)

Section MountFacts.

Context {W : Type} (sys : OS W).

(** *** unmount *)

Lemma unmount_backend path (mounter : Mounter W) w :
  unmount path mounter w =
  (match (backendUnmount path mounter w).1 with
   | None => None
   | Some e => if notMountedError e then None else Some e
   end, (backendUnmount path mounter w).2).
Proof.
  unfold unmount, backendUnmount, io_bind, notMountedError.
  change defaultForceUmountTimeout with 30000000000.
  destruct (match UnmountWithForce mounter with
            | Some force => force path 30000000000
            | None => Unmount mounter path
            end w) as [[e |] w1]; cbn; [| reflexivity].
  by destruct (_ || _).
Qed.

(** C8: [unmount] makes one call into the backend, forced with a timeout
    of 30 seconds when the backend supports it and plain otherwise; an
    error whose text contains "not mounted" or "no mount point specified"
    becomes nil, every other error is returned as it is; hence two calls
    in a row on a path that is already unmounted both return nil. *)
Theorem unmount_idempotent path (mounter : Mounter W) w :
  (forall e w1, backendUnmount path mounter w = (Some e, w1) ->
                unmount path mounter w
                = (if notMountedError e then None else Some e, w1)) /\
  (forall w1, backendUnmount path mounter w = (None, w1) ->
              unmount path mounter w = (None, w1)) /\
  (alreadyUnmounted path mounter w ->
   alreadyUnmounted path mounter (unmount path mounter w).2 ->
   (unmount path mounter w).1 = None /\
   (unmount path mounter (unmount path mounter w).2).1 = None).
Proof.
  split; [| split].
  - intros e w1 H. by rewrite unmount_backend, H.
  - intros w1 H. by rewrite unmount_backend, H.
  - unfold alreadyUnmounted. intros H1 H2.
    rewrite !unmount_backend in *. cbn [fst snd] in *.
    split.
    + destruct (backendUnmount path mounter w).1; [by rewrite H1 | done].
    + destruct (backendUnmount path mounter (backendUnmount path mounter w).2).1;
        [by rewrite H2 | done].
Qed.

(** *** ensureMountPoint *)

(** C3, amended: when the mount-table check reports that the path does
    not exist, [ensureMountPoint] creates it with [MkdirAll] and mode
    0750 and returns false together with the error of the creation: nil
    when the directory was created.  It never reports a mount. *)
Theorem ensureMountPoint_absent path mounter w isMnt err w1 mkdirErr w2 :
  IsMountPoint mounter path w = ((isMnt, err), w1) ->
  GoError.os_IsNotExist err = true ->
  os_MkdirAll sys path perm_0750 w1 = (mkdirErr, w2) ->
  ensureMountPoint sys path mounter w = ((false, mkdirErr), w2).
Proof.
  intros HisMnt Habsent Hmkdir.
  unfold ensureMountPoint, io_bind, io_ret. rewrite HisMnt. cbn [fst snd].
  rewrite Habsent, Hmkdir. reflexivity.
Qed.

(** A corrupt mount point is unmounted.  When the unmount fails, the
    message carries the unmount error and the error of the mount-table
    check, [<nil>] when that check had none. *)
Lemma ensureMountPoint_corrupt path mounter w isMnt err w1 w2 unmountErr w3 :
  IsMountPoint mounter path w = ((isMnt, err), w1) ->
  GoError.os_IsNotExist err = false ->
  foundCorrupt sys path err w1 w2 ->
  unmount path mounter w2 = (unmountErr, w3) ->
  ensureMountPoint sys path mounter w =
  ((false,
    match unmountErr with
    | None => None
    | Some e =>
        Some (errorString
                ("failed to unmount corrupt mount point " +:+ path
                 +:+ " umount error: " +:+ GoError.Error e
                 +:+ " eval error: " +:+ GoError.fmt_v err))
    end), w3).
Proof.
  intros HisMnt Hexists Hcorrupt Hunmount.
  unfold ensureMountPoint, io_bind, io_ret. rewrite HisMnt. cbn [fst snd].
  rewrite Hexists.
  destruct Hcorrupt as [[-> ->] | [-> (probeErr & Hprobe)]]; cbn [negb];
    rewrite ?Hprobe, Hunmount; by destruct unmountErr.
Qed.

(** A path that passes both checks is reported as the mount table has
    it. *)
Lemma ensureMountPoint_healthy path mounter w isMnt err w1 w2 :
  IsMountPoint mounter path w = ((isMnt, err), w1) ->
  GoError.os_IsNotExist err = false ->
  GoError.mount_IsCorruptedMnt err = false ->
  syncMountPointDirectory sys path w1 = (None, w2) ->
  ensureMountPoint sys path mounter w = ((isMnt, err), w2).
Proof.
  intros HisMnt Hexists Hclean Hprobe.
  unfold ensureMountPoint, io_bind, io_ret. rewrite HisMnt. cbn [fst snd].
  rewrite Hexists, Hclean. cbn [negb]. rewrite Hprobe. reflexivity.
Qed.

(** *** ensureDirectory *)

Lemma ensureDirectory_absent path w err w1 mkdirErr w2 :
  os_Stat sys path w = (inr err, w1) ->
  GoError.os_IsNotExist (Some err) = true ->
  os_MkdirAll sys path os.ModePerm w1 = (mkdirErr, w2) ->
  ensureDirectory sys path w =
  (match mkdirErr with
   | None => (true, None)
   | Some e => (false, Some e)
   end, w2).
Proof.
  intros Hstat Habsent Hmkdir.
  unfold ensureDirectory, io_bind. rewrite Hstat, Habsent, Hmkdir.
  by destruct mkdirErr.
Qed.

(** A path that exists: true for a directory, an error for anything
    else. *)
Lemma ensureDirectory_present path w fileInfo w1 :
  os_Stat sys path w = (inl fileInfo, w1) ->
  ensureDirectory sys path w =
  (if IsDir fileInfo then (true, None)
   else (false, Some (errorString ("path " +:+ path +:+ " exists but is not a folder"))),
   w1).
Proof.
  intros Hstat. unfold ensureDirectory, io_bind. rewrite Hstat.
  by destruct (IsDir fileInfo).
Qed.

(** *** getFilesystemStatistics *)

(** C9, amended: on a successful [statfs], the used bytes are
    [(Blocks - Bfree) * Bsize], not the total minus the available bytes;
    the available bytes are [Bavail * Bsize], the total bytes
    [Blocks * Bsize] and the used inodes [Files - Ffree]; each computed in
    [int64], where it wraps around, so that it is the exact integer
    whenever that fits 64 bits. *)
Theorem getFilesystemStatistics_arithmetic volumePath w statfs w1 :
  unix_Statfs sys volumePath w = (inl statfs, w1) ->
  exists volStats,
    getFilesystemStatistics sys volumePath w = ((Some volStats, None), w1) /\
    usedBytes volStats = int64 ((Blocks statfs - Bfree statfs) * Bsize statfs) /\
    availableBytes volStats = int64 (Bavail statfs * Bsize statfs) /\
    totalBytes volStats = int64 (Blocks statfs * Bsize statfs) /\
    usedInodes volStats = int64 (Files statfs - Ffree statfs) /\
    (fitsInt64 ((Blocks statfs - Bfree statfs) * Bsize statfs) ->
     usedBytes volStats = (Blocks statfs - Bfree statfs) * Bsize statfs) /\
    (fitsInt64 (Bavail statfs * Bsize statfs) ->
     availableBytes volStats = Bavail statfs * Bsize statfs) /\
    (fitsInt64 (Blocks statfs * Bsize statfs) ->
     totalBytes volStats = Blocks statfs * Bsize statfs) /\
    (fitsInt64 (Files statfs - Ffree statfs) ->
     usedInodes volStats = Files statfs - Ffree statfs).
Proof.
  intros Hstatfs. unfold getFilesystemStatistics, io_bind. rewrite Hstatfs.
  eexists. split; [reflexivity |].
  cbn [usedBytes availableBytes totalBytes usedInodes].
  assert (Hused : int64 (int64 (int64 (Blocks statfs) - int64 (Bfree statfs))
                         * int64 (Bsize statfs))
                  = int64 ((Blocks statfs - Bfree statfs) * Bsize statfs)).
  { rewrite int64_sub, int64_mul. reflexivity. }
  rewrite Hused, !int64_mul, int64_sub.
  repeat split; try reflexivity; intros Hfits; by apply int64_fits.
Qed.

End MountFacts.

(* ===================================================================== *)
(** ** The mount lifecycle on concrete runs *)
(* ===================================================================== *)

(** Two calls of [unmount] on a path that the mount table does not list. *)
Lemma unmount_idempotent_witness :
  (unmount "/mnt/vol" Fake.tableMounter ["/mnt/other"]).1 = None /\
  (unmount "/mnt/vol" Fake.tableMounter
     (unmount "/mnt/vol" Fake.tableMounter ["/mnt/other"]).2).1 = None.
Proof.
  apply (proj2 (proj2 (unmount_idempotent "/mnt/vol" Fake.tableMounter ["/mnt/other"]))).
  - vm_compute. reflexivity.
  - vm_compute. reflexivity.
Defined.

(** A mounted path is unmounted by the first call, and the second call
    finds nothing to do. *)
Example unmount_twice_mounted :
  unmount "/mnt/vol" Fake.tableMounter ["/mnt/vol"; "/mnt/other"] = (None, ["/mnt/other"]) /\
  unmount "/mnt/vol" Fake.tableMounter ["/mnt/other"] = (None, ["/mnt/other"]).
Proof. split; vm_compute; reflexivity. Qed.

(** An error outside the not-mounted class comes back as it is, from the
    forced unmount with its timeout of 30 seconds. *)
Example unmount_busy :
  unmount "/mnt/vol" (Fake.mounter staleAndBusy) []
  = (Some (errorString "umount: /mnt/vol: target is busy."),
     [Fake.UnmountWithForce_ "/mnt/vol" 30000000000]).
Proof. vm_compute. reflexivity. Qed.

(** An absent path that can be created. *)
Lemma ensureMountPoint_absent_witness :
  ensureMountPoint (Fake.sys absentPath) "/mnt/vol" (Fake.mounter absentPath) []
  = ((false, None),
     [Fake.IsMountPoint_ "/mnt/vol"; Fake.MkdirAll_ "/mnt/vol" perm_0750]).
Proof.
  apply (ensureMountPoint_absent (Fake.sys absentPath) "/mnt/vol" (Fake.mounter absentPath) []
           false (Some (PathError "stat" "/mnt/vol" (Errno ENOENT)))
           [Fake.IsMountPoint_ "/mnt/vol"]).
  - reflexivity.
  - reflexivity.
  - reflexivity.
Defined.

(** C3 as stated fails: the path does not exist, the creation fails, and
    [ensureMountPoint] returns the error of the creation. *)
Lemma ensureMountPoint_mkdir_error_returned :
  GoError.os_IsNotExist (Fake.on_IsMountPoint absentPathReadOnly).2 = true /\
  ensureMountPoint (Fake.sys absentPathReadOnly) "/mnt/vol"
    (Fake.mounter absentPathReadOnly) []
  = ((false, Some (PathError "mkdir" "/mnt/vol" (Errno EROFS))),
     [Fake.IsMountPoint_ "/mnt/vol"; Fake.MkdirAll_ "/mnt/vol" perm_0750]).
Proof. split; reflexivity. Qed.

(** A healthy mount: the directory is opened and read, the sentinel file
    is written, closed and removed, and the mount is reported. *)
Example ensureMountPoint_healthy_run :
  ensureMountPoint (Fake.sys Fake.healthy) "/mnt/vol" (Fake.mounter Fake.healthy) []
  = ((true, None),
     [Fake.IsMountPoint_ "/mnt/vol";
      Fake.OpenFile_ "/mnt/vol" 0x101000 488;
      Fake.Readdirnames_ 3 1;
      Fake.OpenFile_ "/mnt/vol/.longhorn-volume-mount-point-test.tmp" 0x101242 438;
      Fake.WriteString_ 4 "/mnt/vol/.longhorn-volume-mount-point-test.tmp";
      Fake.Close_ 4;
      Fake.Remove_ "/mnt/vol/.longhorn-volume-mount-point-test.tmp";
      Fake.Close_ 3]).
Proof. vm_compute. reflexivity. Qed.

(** C1: the probe fails and the unmount fails.  The message carries the
    unmount error and [<nil>] for the mount-table check; the error of the
    probe, which is the evidence of the corruption, is not in it. *)
Theorem ensureMountPoint_probe_error_lost :
  let probeErr := PathError "open" "/mnt/vol" (Errno EIO) in
  let message :=
    "failed to unmount corrupt mount point /mnt/vol umount error: umount: /mnt/vol: target is busy. eval error: <nil>" in
  syncMountPointDirectory (Fake.sys staleAndBusy) "/mnt/vol" [Fake.IsMountPoint_ "/mnt/vol"]
  = (Some probeErr,
     [Fake.IsMountPoint_ "/mnt/vol"; Fake.OpenFile_ "/mnt/vol" os.O_SYNC perm_0750]) /\
  ensureMountPoint (Fake.sys staleAndBusy) "/mnt/vol" (Fake.mounter staleAndBusy) []
  = ((false, Some (errorString message)),
     [Fake.IsMountPoint_ "/mnt/vol";
      Fake.OpenFile_ "/mnt/vol" os.O_SYNC perm_0750;
      Fake.UnmountWithForce_ "/mnt/vol" 30000000000]) /\
  GoString.Contains message (GoError.Error probeErr) = false /\
  GoString.Contains message "input/output error" = false.
Proof. repeat split; vm_compute; reflexivity. Qed.

(** C10: an existing directory is reported as created. *)
Theorem ensureDirectory_existing_directory :
  Fake.on_Stat Fake.healthy = inl {| IsDir := true |} /\
  ensureDirectory (Fake.sys Fake.healthy) "/var/lib/longhorn" []
  = ((true, None), [Fake.Stat_ "/var/lib/longhorn"]).
Proof. split; reflexivity. Qed.

(** The statistics of the fixture: 1000 blocks of 4096 bytes, 400 free, 350
    available.  The used bytes are not the total minus the available
    bytes. *)
Lemma getFilesystemStatistics_arithmetic_witness :
  exists volStats,
    getFilesystemStatistics (Fake.sys Fake.healthy) "/mnt/vol" []
      = ((Some volStats, None), [Fake.Statfs_ "/mnt/vol"]) /\
    usedBytes volStats = 2457600 /\
    totalBytes volStats - availableBytes volStats = 2662400 /\
    usedInodes volStats = 40.
Proof.
  destruct (getFilesystemStatistics_arithmetic (Fake.sys Fake.healthy) "/mnt/vol" []
              {| Bsize := 4096; Blocks := 1000; Bfree := 400;
                 Bavail := 350; Files := 640; Ffree := 600 |}
              [Fake.Statfs_ "/mnt/vol"] eq_refl)
    as (volStats & Hrun & Hused & Havail & Htotal & Hinodes & _).
  exists volStats. split; [exact Hrun |].
  rewrite Hused, Htotal, Havail, Hinodes. repeat split.
Defined.

(** C9 as stated fails: on a file system of [2^63] bytes the exact
    products do not fit an [int64], and the used and the total bytes come
    out as [-2^63]. *)
Lemma getFilesystemStatistics_wraps :
  let statfs := {| Bsize := 4096; Blocks := 2 ^ 51; Bfree := 0;
                   Bavail := 0; Files := 640; Ffree := 600 |} in
  exists volStats,
    unix_Statfs (Fake.sys fullExbibytes) "/mnt/vol" [] = (inl statfs, [Fake.Statfs_ "/mnt/vol"]) /\
    getFilesystemStatistics (Fake.sys fullExbibytes) "/mnt/vol" []
      = ((Some volStats, None), [Fake.Statfs_ "/mnt/vol"]) /\
    (Blocks statfs - Bfree statfs) * Bsize statfs = 2 ^ 63 /\
    usedBytes volStats = - 2 ^ 63 /\
    usedBytes volStats <> (Blocks statfs - Bfree statfs) * Bsize statfs /\
    Blocks statfs * Bsize statfs = 2 ^ 63 /\
    totalBytes volStats = - 2 ^ 63 /\
    totalBytes volStats <> Blocks statfs * Bsize statfs.
Proof.
  intros statfs. eexists. split; [reflexivity |]. split; [reflexivity |].
  repeat split; discriminate.
Qed.

(* ===================================================================== *)
(** ** More properties of the resolver *)
(* ===================================================================== *)

(** [strconv.Atoi] yields values of type [int]. *)
Lemma Atoi_range s n : strconv.Atoi s = inl n -> fitsInt64 n.
Proof.
  unfold strconv.Atoi, fitsInt64.
  destruct (match s with
            | String "-" s' => (true, s')
            | String "+" s' => (false, s')
            | _ => (false, s)
            end) as [neg body].
  destruct body as [| c body']; [discriminate |].
  assert (Hnonneg : forall t acc v, 0 <= acc -> strconv.parseDigits t acc = strconv.Value v -> 0 <= v).
  { induction t as [| a t IH]; intros acc v Hacc; cbn.
    - intros [= <-]. done.
    - unfold strconv.digit.
      destruct (_ && _) eqn:Hd; [| discriminate].
      apply andb_true_iff in Hd as [Hlo Hhi]. apply Z.leb_le in Hlo.
      destruct (_ <? _); [discriminate |]. apply IH. lia. }
  destruct (strconv.parseDigits (String c body') 0) as [un | |] eqn:Hp; try discriminate.
  apply Hnonneg in Hp; [| done].
  unfold strconv.maxInt64.
  destruct neg.
  - destruct (Z.ltb_spec (2 ^ 63 - 1 + 1) un); [discriminate |]. intros [= <-]. lia.
  - destruct (Z.ltb_spec (2 ^ 63 - 1) un); [discriminate |]. intros [= <-]. lia.
Qed.

Section MoreResolverFacts.

Context (I : Imports).

(** X1: an error never comes with a descriptor, and it is the failure of a
    key: the first key, in the order of the source, whose value in the
    map its parser or validator rejects; the error is the error of that
    parser or validator wrapped with the message of the key. *)
Theorem getVolumeOptions_error_names_key volumeID (m : gmap string string) vol err m' :
  getVolumeOptions I volumeID m = (vol, Some err, m') ->
  vol = None /\
  exists before key message after value cause,
    validatedKeys = (before ++ (key, message) :: after)%list /\
    acceptedAll I m before /\
    m !! key = Some value /\
    checkKey I key value = Rejected (Some cause) /\
    err = withMessage cause message.
Proof.
  intros H. destruct vol as [vol |].
  { apply getVolumeOptions_descriptor_no_error in H. discriminate H. }
  split; [done |].
  apply getVolumeOptions_rejection in H
    as (before & key & message & after & value & [cause |] & Hkeys & Hacc & Hv & Hc & Herr);
    [| discriminate Herr].
  exists before, key, message, after, value, cause.
  cbn in Herr. by simplify_eq.
Qed.

(** X2: the options map of the caller is written at most once, by the
    downgrade: it comes back unchanged, or with [migratable] set to
    [false] where it parsed to true; every other key comes back as it
    was. *)
Theorem getVolumeOptions_map_effect volumeID (m : gmap string string) vol err m' :
  getVolumeOptions I volumeID m = (vol, err, m') ->
  (m' = m \/
   (m' = <["migratable" := "false"]> m /\
    exists s, m !! "migratable" = Some s /\ strconv.ParseBool s = inl true)) /\
  (forall k, k <> "migratable" -> m' !! k = m !! k).
Proof.
  unfold getVolumeOptions. intros H. cbv zeta in H.
  block_cases H srt Hsrt ltac:(split; [by left | done]).
  block_cases H mode Hmode ltac:(split; [by left | done]).
  match type of H with
  | match ?e with inl _ => _ | inr _ => _ end = _ =>
      destruct e as [[mig m2] | r] eqn:Hmig
  end.
  2:{ subst r; repeat (case_match; simplify_eq); (split; [by left | done]). }
  apply migratable_block_keeps in Hmig as (Hcase & _ & Hkeep).
  assert (Hgoal : (m2 = m \/
                   (m2 = <["migratable" := "false"]> m /\
                    exists s, m !! "migratable" = Some s /\ strconv.ParseBool s = inl true)) /\
                  (forall k, k <> "migratable" -> m2 !! k = m !! k)).
  { split; [| exact Hkeep].
    destruct Hcase as [-> | (-> & _ & s & Hs & Hp & _)]; [by left |].
    right. split; [done |]. by exists s. }
  clear Hsrt Hmode Hcase Hkeep.
  repeat (let x := fresh "x" in let E := fresh "E" in
          block_cases H x E ltac:(exact Hgoal); clear E).
  by simplify_eq.
Qed.

(** X3: the numbers of a descriptor.  The stale-replica timeout is a
    positive [int64], the replica count is an [int64] that is not
    negative. *)
Theorem getVolumeOptions_descriptor_numbers volumeID (m : gmap string string) vol err m' :
  getVolumeOptions I volumeID m = (Some vol, err, m') ->
  0 < StaleReplicaTimeout vol < 2 ^ 63 /\
  0 <= NumberOfReplicas vol < 2 ^ 63.
Proof.
  unfold getVolumeOptions. intros H. cbv zeta in H.
  block_continues_as H srt Hsrt.
  do 3 block_skipped H.
  block_continues_as H nor Hnor.
  repeat block_skipped H.
  simplify_eq. cbn [StaleReplicaTimeout NumberOfReplicas].
  split.
  - assert (fitsInt64 srt) as Hfit.
    { destruct (m !! "staleReplicaTimeout") as [s |]; [| simplify_eq; by compute].
      destruct (strconv.Atoi s) as [n |] eqn:Hn; simplify_eq. by eapply Atoi_range. }
    unfold fitsInt64 in Hfit. unfold defaultStaleReplicaTimeout.
    destruct (Z.leb_spec srt 0); lia.
  - clear Hsrt. repeat (case_match; simplify_eq); try lia.
    match goal with Hn : strconv.Atoi _ = inl _ |- _ => apply Atoi_range in Hn end.
    match goal with Hlt : (_ <? 0) = false |- _ => apply Z.ltb_ge in Hlt end.
    unfold fitsInt64 in *. lia.
Qed.

(** X4: the cross-field rule.  A descriptor is migratable exactly when
    [migratable] and [share] both parse to true; a migratable descriptor
    is ReadWriteMany; the access mode is ReadWriteMany exactly when
    [share] parses to true, ReadWriteOnce when it parses to false and
    empty when the key is absent. *)
Theorem getVolumeOptions_cross_field volumeID (m : gmap string string) vol err m' :
  getVolumeOptions I volumeID m = (Some vol, err, m') ->
  (Migratable vol = true <->
   exists s share, m !! "migratable" = Some s /\ strconv.ParseBool s = inl true /\
                   m !! "share" = Some share /\ strconv.ParseBool share = inl true) /\
  (Migratable vol = true -> AccessMode vol = longhorn.AccessModeReadWriteMany) /\
  (m !! "share" = None -> AccessMode vol = "") /\
  (forall share b, m !! "share" = Some share -> strconv.ParseBool share = inl b ->
                   AccessMode vol = if b then longhorn.AccessModeReadWriteMany
                                    else longhorn.AccessModeReadWriteOnce).
Proof.
  unfold getVolumeOptions. intros H. cbv zeta in H.
  block_skipped H.
  block_continues_as H mode Hmode.
  block_continues_as H mig Hmig. destruct mig as [mig m2].
  repeat block_skipped H.
  simplify_eq. cbn [Migratable AccessMode].
  pose proof Hmig as Hmig0.
  apply migratable_block_keeps in Hmig as (_ & Htrue & _).
  assert (Hmodes : (m !! "share" = None -> mode = "") /\
                   (forall share b, m !! "share" = Some share ->
                                    strconv.ParseBool share = inl b ->
                                    mode = if b then longhorn.AccessModeReadWriteMany
                                           else longhorn.AccessModeReadWriteOnce)).
  { destruct (m !! "share") as [share |].
    - destruct (strconv.ParseBool share) as [b |] eqn:Hp; simplify_eq.
      split; [done |]. intros share0 b0 [= <-] Hb. rewrite Hp in Hb. by simplify_eq.
    - simplify_eq. done. }
  destruct Hmodes as [Hnone Hsome].
  split; [| split; [by intros [-> _]%Htrue | split; assumption]].
  split.
  - intros (-> & s & Hs & Hb)%Htrue.
    destruct (m !! "share") as [share |] eqn:Hshare; [| by specialize (Hnone eq_refl)].
    exists s, share. repeat split; try done.
    clear - Hmode. destruct (strconv.ParseBool share) as [[|] |]; by simplify_eq.
  - intros (s & share & Hs & Hb & Hshare & Hp).
    assert (mode = longhorn.AccessModeReadWriteMany) as -> by exact (Hsome _ _ Hshare Hp).
    clear - Hmig0 Hs Hb. rewrite Hs, Hb in Hmig0. cbn in Hmig0. by simplify_eq.
Qed.

(** X5: after a successful run the [migratable] entry of the map, when
    there is one, parses to the flag of the descriptor. *)
Theorem getVolumeOptions_map_consistent volumeID (m : gmap string string) vol err m' s :
  getVolumeOptions I volumeID m = (Some vol, err, m') ->
  m' !! "migratable" = Some s ->
  strconv.ParseBool s = inl (Migratable vol).
Proof.
  unfold getVolumeOptions. intros H Hs. cbv zeta in H.
  do 2 block_skipped H.
  block_continues_as H mig Hmig. destruct mig as [mig m2].
  repeat block_skipped H.
  simplify_eq. cbn [Migratable].
  repeat (case_match; simplify_eq); cbn in *; simplify_map_eq; try done.
  all: by repeat match goal with b : bool |- _ => destruct b end.
Qed.

(** X6: the fields that are copied.  [fromBackup], [backupTargetName],
    [dataSource], [frontend] and [dataEngine] reach the descriptor as they
    are in the map, without validation; an absent key leaves the field
    empty, and the data engine [v1]. *)
Theorem getVolumeOptions_copied_fields volumeID (m : gmap string string) vol err m' :
  getVolumeOptions I volumeID m = (Some vol, err, m') ->
  FromBackup vol = default "" (m !! "fromBackup") /\
  BackupTargetName vol = default "" (m !! "backupTargetName") /\
  DataSource vol = default "" (m !! "dataSource") /\
  Frontend vol = default "" (m !! "frontend") /\
  DataEngine vol = default "v1" (m !! "dataEngine") /\
  BackingImage vol = default "" (m' !! BackingImageParameterName I).
Proof.
  unfold getVolumeOptions. intros H. cbv zeta in H.
  do 2 block_skipped H.
  block_continues_as H mig Hmig. destruct mig as [mig m2].
  apply migratable_block_keeps in Hmig as (_ & _ & Hkeep).
  repeat block_skipped H.
  simplify_eq.
  cbn [FromBackup BackupTargetName DataSource Frontend DataEngine BackingImage].
  rewrite <- !Hkeep by done.
  repeat split.
Qed.

End MoreResolverFacts.
(** Two runs that go through related blocks have the same results. *)
Lemma fst_bind_ext {A1 A2 : Type} (R : A1 -> A2 -> Prop)
      (b1 : A1 + outcome) (b2 : A2 + outcome) (k1 : A1 -> outcome) (k2 : A2 -> outcome) :
  match b1, b2 with
  | inl x1, inl x2 => R x1 x2
  | inr r1, inr r2 => r1.1 = r2.1
  | _, _ => False
  end ->
  (forall x1 x2, R x1 x2 -> (k1 x1).1 = (k2 x2).1) ->
  (match b1 with inl x => k1 x | inr r => r end).1
  = (match b2 with inl x => k2 x | inr r => r end).1.
Proof. destruct b1, b2; naive_solver. Qed.

Ltac related_blocks R :=
  match goal with
  | |- (match ?b1 with inl x => @?k1 x | inr r => r end).1
       = (match ?b2 with inl y => @?k2 y | inr r' => r' end).1 =>
      apply (fst_bind_ext R b1 b2 k1 k2)
  end.

Lemma agreeOn_insert keys (m1 m2 : gmap string string) k v :
  agreeOn keys m1 m2 -> agreeOn keys (<[k := v]> m1) (<[k := v]> m2).
Proof.
  intros H k' Hk'. destruct (decide (k = k')) as [-> | Hne].
  - by rewrite !lookup_insert_eq.
  - rewrite !lookup_insert_ne by done. by apply H.
Qed.

Section Extensionality.

Context (I : Imports).

(** A block with the same key in two maps that agree on it. *)
Ltac same_block H :=
  match goal with
  | |- context [?m !! ?k] =>
      rewrite (H k) by (unfold recognizedKeys; in_list)
  end;
  repeat case_match; simplify_eq; done.

(** The results of [getVolumeOptions] depend on the entries of the
    recognised keys only, and not on the volume id. *)
Lemma getVolumeOptions_ext volumeID1 volumeID2 (m1 m2 : gmap string string) :
  agreeOn (recognizedKeys I) m1 m2 ->
  (getVolumeOptions I volumeID1 m1).1 = (getVolumeOptions I volumeID2 m2).1.
Proof.
  intros H. unfold getVolumeOptions. cbv zeta.
  related_blocks (@eq Z); [same_block H | intros srt ? <-; cbv beta].
  related_blocks (@eq string); [same_block H | intros mode ? <-; cbv beta].
  related_blocks (fun p1 p2 : bool * gmap string string =>
                    p1.1 = p2.1 /\ agreeOn (recognizedKeys I) p1.2 p2.2).
  { rewrite (H "migratable") by (unfold recognizedKeys; in_list).
    repeat case_match; simplify_eq; cbn; try done.
    split; [done |]. by apply agreeOn_insert. }
  intros [mig n1] [mig' n2] [Hmig Hn]. cbn in Hmig, Hn. subst mig'. cbv beta iota.
  related_blocks (@eq bool); [same_block Hn | intros ? ? <-; cbv beta].
  related_blocks (@eq Z); [same_block Hn | intros ? ? <-; cbv beta].
  related_blocks (@eq string); [same_block Hn | intros ? ? <-; cbv beta].
  related_blocks (@eq string); [same_block Hn | intros ? ? <-; cbv beta].
  related_blocks (@eq bool); [same_block Hn | intros ? ? <-; cbv beta].
  related_blocks (@eq string); [same_block Hn | intros ? ? <-; cbv beta].
  related_blocks (@eq string); [same_block Hn | intros ? ? <-; cbv beta].
  related_blocks (@eq string); [same_block Hn | intros ? ? <-; cbv beta].
  related_blocks (@eq string); [same_block Hn | intros ? ? <-; cbv beta].
  related_blocks (@eq (list VolumeRecurringJob)); [same_block Hn | intros ? ? <-; cbv beta].
  related_blocks (@eq string); [same_block Hn | intros ? ? <-; cbv beta].
  cbn [fst].
  repeat match goal with
         | |- context [n1 !! ?k] =>
             rewrite (Hn k) by (unfold recognizedKeys; in_list)
         end.
  reflexivity.
Qed.

(** X7: unrecognised keys are ignored.  Adding, changing or removing a key
    that [getVolumeOptions] does not read changes neither the descriptor
    nor the error. *)
Theorem getVolumeOptions_ignores_unknown_keys volumeID (m : gmap string string) k v :
  k ∉ recognizedKeys I ->
  (getVolumeOptions I volumeID (<[k := v]> m)).1 = (getVolumeOptions I volumeID m).1 /\
  (getVolumeOptions I volumeID (delete k m)).1 = (getVolumeOptions I volumeID m).1.
Proof.
  intros Hk. split; apply getVolumeOptions_ext; intros k' Hk'.
  - apply lookup_insert_ne. by intros ->.
  - apply lookup_delete_ne. by intros ->.
Qed.

End Extensionality.
(* ===================================================================== *)
(** ** More properties of the mount lifecycle *)
(* ===================================================================== *)

Section MoreMountFacts.

Context {W : Type} (sys : OS W) (host : Host W).

(** X8: an error that [unmount] returns is the error of the backend, it is
    not of the not-mounted class, and the world is the one the backend
    left. *)
Theorem unmount_error_inv path (mounter : Mounter W) w e w1 :
  unmount path mounter w = (Some e, w1) ->
  backendUnmount path mounter w = (Some e, w1) /\ notMountedError e = false.
Proof.
  rewrite unmount_backend.
  destruct (backendUnmount path mounter w) as [[e0 |] w0]; cbn; [| discriminate].
  destruct (notMountedError e0) eqn:Hclass; [discriminate |].
  intros [= <- <-]. done.
Qed.

(** X9: [unmountAndCleanupMountPoint] cleans up exactly when the unmount
    left nothing mounted.  An unmount error outside the not-mounted class
    is returned and the cleanup is not run; otherwise the result is the
    one of [mount.CleanupMountPoint] with the extensive check, run in the
    world that the unmount left. *)
Theorem unmountAndCleanupMountPoint_cases path (mounter : Mounter W) w r w1 :
  backendUnmount path mounter w = (r, w1) ->
  unmountAndCleanupMountPoint host path mounter w =
  match r with
  | Some e =>
      if notMountedError e then mount_CleanupMountPoint host path mounter true w1
      else (Some e, w1)
  | None => mount_CleanupMountPoint host path mounter true w1
  end.
Proof.
  intros Hbackend.
  unfold unmountAndCleanupMountPoint, io_bind, io_ret.
  rewrite unmount_backend, Hbackend. cbn [fst snd].
  destruct r as [e |]; [| reflexivity].
  by destruct (notMountedError e).
Qed.

(** X10: [ensureMountPoint] reports a mount only when both checks pass: the
    mount table said so without a not-exist or corruption error, and the
    probe found no error.  The world is the one the probe left: nothing
    was unmounted or created. *)
Theorem ensureMountPoint_mounted_inv path (mounter : Mounter W) w err w' :
  ensureMountPoint sys path mounter w = ((true, err), w') ->
  exists w1,
    IsMountPoint mounter path w = ((true, err), w1) /\
    GoError.os_IsNotExist err = false /\
    GoError.mount_IsCorruptedMnt err = false /\
    syncMountPointDirectory sys path w1 = (None, w').
Proof.
  unfold ensureMountPoint, io_bind, io_ret.
  destruct (IsMountPoint mounter path w) as [[isMnt err0] w1]. cbn [fst snd].
  destruct (GoError.os_IsNotExist err0) eqn:Habsent.
  { destruct (os_MkdirAll sys path perm_0750 w1). discriminate. }
  destruct (GoError.mount_IsCorruptedMnt err0) eqn:Hcorrupt; cbn [negb].
  { destruct (unmount path mounter w1) as [[e |] w2]; discriminate. }
  destruct (syncMountPointDirectory sys path w1) as [[probeErr |] w2] eqn:Hprobe.
  { destruct (unmount path mounter w2) as [[e |] w3]; discriminate. }
  intros [= -> -> ->]. by exists w1.
Qed.

(** X11: in every result of [ensureDirectory], [true] comes without an
    error: an error always comes with [false]. *)
Theorem ensureDirectory_error_not_created path w created e w' :
  ensureDirectory sys path w = ((created, Some e), w') -> created = false.
Proof.
  unfold ensureDirectory, io_bind, io_ret.
  destruct (os_Stat sys path w) as [[fileInfo | err] w1].
  - destruct (IsDir fileInfo); [discriminate |]. by intros [= <- _ _].
  - destruct (GoError.os_IsNotExist (Some err)).
    + destruct (os_MkdirAll sys path os.ModePerm w1) as [[e1 |] w2];
        [by intros [= <- _ _] | discriminate].
    + by intros [= <- _ _].
Qed.

(** X12: the inode counts add up.  When the free inodes do not exceed the
    inodes of the file system and both fit an [int64], used plus available
    inodes are the total, and the used inodes are not negative. *)
Theorem getFilesystemStatistics_inodes volumePath w statfs w1 :
  unix_Statfs sys volumePath w = (inl statfs, w1) ->
  0 <= Ffree statfs <= Files statfs -> Files statfs < 2 ^ 63 ->
  exists volStats,
    getFilesystemStatistics sys volumePath w = ((Some volStats, None), w1) /\
    usedInodes volStats + availableInodes volStats = totalInodes volStats /\
    totalInodes volStats = Files statfs /\
    0 <= usedInodes volStats <= totalInodes volStats.
Proof.
  intros Hstatfs Hfree Hfiles.
  unfold getFilesystemStatistics, io_bind, io_ret. rewrite Hstatfs.
  eexists. split; [reflexivity |].
  cbn [usedInodes availableInodes totalInodes].
  rewrite int64_sub.
  rewrite !int64_fits by (unfold fitsInt64; lia). lia.
Qed.

(** X13: the byte counts add up.  When the free blocks do not exceed the
    blocks of the file system, the available blocks do not exceed the free
    blocks, the block size is positive and the size of the file system
    fits an [int64], used bytes plus free bytes are the total, and the
    available bytes are at most the total minus the used bytes. *)
Theorem getFilesystemStatistics_bytes volumePath w statfs w1 :
  unix_Statfs sys volumePath w = (inl statfs, w1) ->
  0 < Bsize statfs ->
  0 <= Bavail statfs <= Bfree statfs -> Bfree statfs <= Blocks statfs ->
  Blocks statfs * Bsize statfs < 2 ^ 63 ->
  exists volStats,
    getFilesystemStatistics sys volumePath w = ((Some volStats, None), w1) /\
    usedBytes volStats + Bfree statfs * Bsize statfs = totalBytes volStats /\
    0 <= usedBytes volStats <= totalBytes volStats /\
    0 <= availableBytes volStats <= totalBytes volStats - usedBytes volStats.
Proof.
  intros Hstatfs Hsize Havail Hfree Htotal.
  unfold getFilesystemStatistics, io_bind, io_ret. rewrite Hstatfs.
  eexists. split; [reflexivity |].
  cbn [usedBytes availableBytes totalBytes].
  rewrite int64_sub, !int64_mul.
  assert (Blocks statfs - Bfree statfs <= Blocks statfs) by lia.
  assert (0 <= (Blocks statfs - Bfree statfs) * Bsize statfs
          <= Blocks statfs * Bsize statfs) by nia.
  assert (0 <= Bavail statfs * Bsize statfs <= Bfree statfs * Bsize statfs) by nia.
  assert (Bfree statfs * Bsize statfs <= Blocks statfs * Bsize statfs) by nia.
  rewrite !int64_fits by (unfold fitsInt64; lia). lia.
Qed.

(** The permission, set-id and sticky bits are outside the file type
    mask. *)
Lemma land_S_IFMT_low bits : 0 <= bits < 4096 -> Z.land bits unix.S_IFMT = 0.
Proof.
  intros Hbits. apply Z.bits_inj'. intros n Hn.
  rewrite Z.land_spec, Z.bits_0.
  destruct (Z.lt_ge_cases n 12) as [Hlt | Hge].
  - change unix.S_IFMT with (Z.shiftl 15 12).
    rewrite Z.shiftl_spec_low by lia. apply andb_false_r.
  - replace (Z.testbit bits n) with false; [reflexivity |].
    symmetry. destruct (Z.eq_dec bits 0) as [-> | Hnz]; [apply Z.bits_0 |].
    apply Z.bits_above_log2; [lia |].
    assert (Z.log2 bits < 12); [| lia].
    apply Z.log2_lt_pow2; lia.
Qed.

(** X14: [isBlockDevice] looks at the file type only.  For a file type
    [fileType] (a value under the mask [S_IFMT]) and any permission,
    set-id and sticky bits, the answer is true exactly when the type is
    [S_IFBLK]; a failure of [stat] is returned with [false]. *)
Theorem isBlockDevice_file_type volumePath w fileType bits w1 :
  Z.land fileType unix.S_IFMT = fileType ->
  0 <= bits < 4096 ->
  unix_Stat host volumePath w = (inl {| unix.Mode := Z.lor fileType bits |}, w1) ->
  isBlockDevice host volumePath w = ((bool_decide (fileType = unix.S_IFBLK), None), w1).
Proof.
  intros Htype Hbits Hstat.
  unfold isBlockDevice, io_bind, io_ret. rewrite Hstat. cbn [unix.Mode].
  rewrite Z.land_lor_distr_l, Htype, land_S_IFMT_low, Z.lor_0_r by done.
  destruct (Z.eqb_spec fileType unix.S_IFBLK) as [Heq | Hne].
  - by rewrite bool_decide_eq_true_2.
  - by rewrite bool_decide_eq_false_2.
Qed.

(** X15: an error that [makeFile] returns is the error of closing the file
    it opened, or an error of the open that is outside the already-exists
    class; a file that was opened is closed before the return. *)
Theorem makeFile_error_inv pathname w e w' :
  makeFile sys host pathname w = (Some e, w') ->
  (exists f w1, os_OpenFile sys pathname os.O_CREATE perm_0644 w = (inl f, w1) /\
                File_Close sys f w1 = (Some e, w')) \/
  (os_OpenFile sys pathname os.O_CREATE perm_0644 w = (inr e, w') /\
   os_IsExist host (Some e) = false).
Proof.
  unfold makeFile, io_bind, io_ret.
  destruct (os_OpenFile sys pathname os.O_CREATE perm_0644 w) as [[f | err] w1].
  - destruct (File_Close sys f w1) as [closeErr w2] eqn:Hclose.
    intros [= -> ->]. left. by exists f, w1.
  - destruct (os_IsExist host (Some err)) eqn:Hclass; cbn [negb]; [discriminate |].
    intros [= -> ->]. by right.
Qed.

End MoreMountFacts.
(* ===================================================================== *)
(** ** The probe and the recovery on scripted systems *)
(* ===================================================================== *)

(** X16: the probe releases what it acquires, whatever the system answers.
    The sentinel file is the one that [path.Join] names in the directory.
    When the directory cannot be opened nothing else is called.  When it
    is opened, its descriptor is closed by the last call.  When the
    sentinel file is opened, it is written, closed and removed, in this
    order, whether the write succeeds or not; and the sentinel is removed
    only when it was opened. *)
Theorem syncMountPointDirectory_releases (s : Fake.script) (path : string)
        (w : list Fake.syscall) :
  exists calls,
    (syncMountPointDirectory (Fake.sys s) path w).2 = (w ++ calls)%list /\
    (forall e, Fake.on_OpenFile s path = inr e ->
               calls = [Fake.OpenFile_ path os.O_SYNC perm_0750]) /\
    (forall d, Fake.on_OpenFile s path = inl d ->
               last calls = Some (Fake.Close_ d)) /\
    (forall d f, Fake.on_OpenFile s path = inl d ->
                 Fake.on_OpenFile s (sentinelOf path) = inl f ->
                 In (Fake.OpenFile_ (sentinelOf path) 0x101242 perm_0666) calls ->
                 exists before,
                   calls = (before ++ [Fake.WriteString_ f (sentinelOf path);
                                       Fake.Close_ f;
                                       Fake.Remove_ (sentinelOf path);
                                       Fake.Close_ d])%list) /\
    (In (Fake.Remove_ (sentinelOf path)) calls ->
     exists f, Fake.on_OpenFile s (sentinelOf path) = inl f).
Proof.
  unfold syncMountPointDirectory, io_bind, io_ret, sentinelOf.
  cbn [Fake.sys os_OpenFile File_Readdirnames File_WriteString File_Close os_Remove
       path_Join].
  unfold Fake.answer.
  change (Z.lor (Z.lor (Z.lor os.O_CREATE os.O_RDWR) os.O_SYNC) os.O_TRUNC) with 0x101242.
  set (tmp := GoPath.Join path tempTestMountPointValidStatusFile).
  destruct (Fake.on_OpenFile s path) as [d | e] eqn:Hdir.
  2:{ eexists. split; [reflexivity |].
      repeat split; try done; try (intros; discriminate).
      intros [H | []]. discriminate H. }
  destruct (Fake.on_Readdirnames s) as [names [e |]]; cbn [fst snd].
  - destruct (GoError.Is_EOF e); cbn [negb].
    + destruct (Fake.on_OpenFile s tmp) as [f | e'] eqn:Hfile.
      * eexists. split; [cbn [snd]; by rewrite <- !app_assoc |]. cbn [app].
        split; [intros; discriminate |]. split; [by intros ? [= <-] |].
        split; [| by eauto].
        intros d' f' [= <-] [= <-] _.
        by exists [Fake.OpenFile_ path os.O_SYNC perm_0750; Fake.Readdirnames_ d 1;
                   Fake.OpenFile_ tmp 0x101242 perm_0666].
      * eexists. split; [cbn [snd]; by rewrite <- !app_assoc |]. cbn [app].
        split; [intros; discriminate |]. split; [by intros ? [= <-] |].
        split; [intros; discriminate |].
        intros [H | [H | [H | [H | []]]]]; discriminate H.
    + eexists. split; [cbn [snd]; by rewrite <- !app_assoc |]. cbn [app].
      split; [intros; discriminate |]. split; [by intros ? [= <-] |].
      split.
      * intros d' f' _ _ [H | [H | [H | []]]]; discriminate H.
      * intros [H | [H | [H | []]]]; discriminate H.
  - destruct (Fake.on_OpenFile s tmp) as [f | e'] eqn:Hfile.
    + eexists. split; [cbn [snd]; by rewrite <- !app_assoc |]. cbn [app].
      split; [intros; discriminate |]. split; [by intros ? [= <-] |].
      split; [| by eauto].
      intros d' f' [= <-] [= <-] _.
      by exists [Fake.OpenFile_ path os.O_SYNC perm_0750; Fake.Readdirnames_ d 1;
                 Fake.OpenFile_ tmp 0x101242 perm_0666].
    + eexists. split; [cbn [snd]; by rewrite <- !app_assoc |]. cbn [app].
      split; [intros; discriminate |]. split; [by intros ? [= <-] |].
      split; [intros; discriminate |].
      intros [H | [H | [H | [H | []]]]]; discriminate H.
Qed.

(** X17: an empty directory is healthy.  When [Readdirnames] answers with
    [io.EOF] (also wrapped), the probe goes on exactly as if it had
    answered without error. *)
Theorem syncMountPointDirectory_tolerates_EOF (s : Fake.script) (path : string)
        (w : list Fake.syscall) names e :
  Fake.on_Readdirnames s = (names, Some e) ->
  GoError.Is_EOF e = true ->
  syncMountPointDirectory (Fake.sys s) path w
  = syncMountPointDirectory (Fake.sys (withReaddirnames s (names, None))) path w.
Proof.
  intros Hread Heof.
  unfold syncMountPointDirectory, io_bind, io_ret.
  cbn [Fake.sys os_OpenFile File_Readdirnames File_WriteString File_Close os_Remove
       path_Join withReaddirnames Fake.on_OpenFile Fake.on_Readdirnames
       Fake.on_WriteString].
  unfold Fake.answer. rewrite Hread. cbn [fst snd]. rewrite Heof. reflexivity.
Qed.

(** Any other error of [Readdirnames] fails the probe before the sentinel
    is touched. *)
Lemma syncMountPointDirectory_readdir_error (s : Fake.script) (path : string) names e d :
  Fake.on_OpenFile s path = inl d ->
  Fake.on_Readdirnames s = (names, Some e) ->
  GoError.Is_EOF e = false ->
  syncMountPointDirectory (Fake.sys s) path []
  = (Some e, [Fake.OpenFile_ path os.O_SYNC perm_0750; Fake.Readdirnames_ d 1;
              Fake.Close_ d]).
Proof.
  intros Hopen Hread Heof.
  unfold syncMountPointDirectory, io_bind, io_ret.
  cbn [Fake.sys os_OpenFile File_Readdirnames File_WriteString File_Close os_Remove
       path_Join].
  unfold Fake.answer. rewrite Hopen, Hread. cbn [fst snd]. rewrite Heof. reflexivity.
Qed.

(** The calls of the probe never change the mount table or create a
    directory. *)
Lemma syncMountPointDirectory_harmless (s : Fake.script) (path : string)
      (w : list Fake.syscall) :
  existsb changesMounts w = false ->
  existsb changesMounts (syncMountPointDirectory (Fake.sys s) path w).2 = false.
Proof.
  intros Hw.
  unfold syncMountPointDirectory, io_bind, io_ret.
  cbn [Fake.sys os_OpenFile File_Readdirnames File_WriteString File_Close os_Remove
       path_Join].
  unfold Fake.answer.
  repeat (case_match; simplify_eq; cbn [fst snd negb] in * );
    cbn [snd]; rewrite ?existsb_app, Hw; reflexivity.
Qed.

(** X18: a path that [ensureMountPoint] reports as mounted has not been
    touched: whatever the system answers, no unmount and no directory
    creation was called. *)
Theorem ensureMountPoint_mounted_untouched (s : Fake.script) (path : string) err
        (calls : list Fake.syscall) :
  ensureMountPoint (Fake.sys s) path (Fake.mounter s) [] = ((true, err), calls) ->
  existsb changesMounts calls = false.
Proof.
  unfold ensureMountPoint, io_bind, io_ret.
  cbn [Fake.mounter IsMountPoint]. unfold Fake.answer at 1.
  destruct (Fake.on_IsMountPoint s) as [isMnt err0]. cbn [fst snd app].
  destruct (GoError.os_IsNotExist err0).
  { cbn [Fake.sys os_MkdirAll]. unfold Fake.answer. discriminate. }
  destruct (GoError.mount_IsCorruptedMnt err0); cbn [negb].
  { destruct (unmount path (Fake.mounter s) _) as [[e |] w2]; discriminate. }
  pose proof (syncMountPointDirectory_harmless s path [Fake.IsMountPoint_ path] eq_refl)
    as Hprobe.
  destruct (syncMountPointDirectory (Fake.sys s) path [Fake.IsMountPoint_ path])
    as [[probeErr |] w2].
  { destruct (unmount path (Fake.mounter s) w2) as [[e |] w3]; discriminate. }
  intros [= -> -> ->]. exact Hprobe.
Qed.

(** X19: a corruption that is found is always followed by exactly one
    unmount, forced when the backend can, as the last call; the result
    never reports a mount. *)
Theorem ensureMountPoint_corrupt_unmounts (s : Fake.script) (path : string) isMnt err :
  Fake.on_IsMountPoint s = (isMnt, err) ->
  GoError.os_IsNotExist err = false ->
  GoError.mount_IsCorruptedMnt err = true
  \/ (syncMountPointDirectory (Fake.sys s) path [Fake.IsMountPoint_ path]).1 <> None ->
  let run := ensureMountPoint (Fake.sys s) path (Fake.mounter s) [] in
  run.1.1 = false /\
  last run.2 = Some (if Fake.forceful s
                     then Fake.UnmountWithForce_ path 30000000000
                     else Fake.Unmount_ path) /\
  length (filter (fun c => changesMounts c = true) run.2) = 1%nat.
Proof.
  intros HisMnt Hexists Hcorrupt run.
  pose proof (syncMountPointDirectory_harmless s path [Fake.IsMountPoint_ path] eq_refl)
    as Hprobe.
  assert (Hunmount : forall w, existsb changesMounts w = false ->
            let r := unmount path (Fake.mounter s) w in
            last r.2 = Some (if Fake.forceful s
                             then Fake.UnmountWithForce_ path 30000000000
                             else Fake.Unmount_ path) /\
            length (filter (fun c => changesMounts c = true) r.2) = 1%nat).
  { intros w Hw. unfold unmount, io_bind, io_ret. cbn [Fake.mounter UnmountWithForce Unmount].
    assert (Hnone : filter (fun c => changesMounts c = true) w = []).
    { clear - Hw. induction w as [| c w IH]; [done |]. cbn in Hw.
      apply orb_false_iff in Hw as [Hc Hw]. rewrite filter_cons, Hc.
      rewrite decide_False by done. by apply IH. }
    destruct (Fake.forceful s); unfold Fake.answer;
      (destruct (Fake.on_Unmount s) as [e |]; [destruct (_ || _) |]);
      cbn [snd]; rewrite last_snoc, filter_app, Hnone; split; reflexivity. }
  assert (Hrun : exists w1,
             existsb changesMounts w1 = false /\
             run = ((false,
                    match (unmount path (Fake.mounter s) w1).1 with
                    | Some e =>
                        Some (errorString
                                ("failed to unmount corrupt mount point " +:+ path
                                 +:+ " umount error: " +:+ GoError.Error e
                                 +:+ " eval error: " +:+ GoError.fmt_v err))
                    | None => None
                    end), (unmount path (Fake.mounter s) w1).2)).
  { subst run. unfold ensureMountPoint, io_bind, io_ret.
    cbn [Fake.mounter IsMountPoint]. unfold Fake.answer at 1.
    rewrite HisMnt. cbn [fst snd app]. rewrite Hexists.
    destruct (GoError.mount_IsCorruptedMnt err) eqn:Hc; cbn [negb].
    - exists [Fake.IsMountPoint_ path]. split; [done |].
      by destruct (unmount path _ [Fake.IsMountPoint_ path]) as [[e |] w2].
    - destruct Hcorrupt as [? | Hfail]; [done |].
      destruct (syncMountPointDirectory (Fake.sys s) path [Fake.IsMountPoint_ path])
        as [[probeErr |] w2]; [| done].
      exists w2. split; [exact Hprobe |].
      by destruct (unmount path _ w2) as [[e |] w3]. }
  destruct Hrun as (w1 & Hw1 & ->). cbn [fst snd].
  split; [done |]. by apply Hunmount.
Qed.
(* ===================================================================== *)
(** ** Fields and separators *)
(* ===================================================================== *)

Lemma Split_not_nil s c : GoString.Split s c <> [].
Proof.
  destruct s as [| a s]; cbn; [done |].
  destruct (Ascii.eqb a c); [done |]. by destruct (GoString.Split s c).
Qed.

(** Joining the fields of a string with the separator gives the string
    back. *)
Lemma joinWith_Split s c : joinWith c (GoString.Split s c) = s.
Proof.
  induction s as [| a s IH]; cbn; [done |].
  pose proof (Split_not_nil s c) as Hne.
  destruct (Ascii.eqb_spec a c) as [-> | Hac].
  - destruct (GoString.Split s c) as [| f fs] eqn:Hs; [done |].
    cbn [joinWith]. cbn. by rewrite <- IH.
  - destruct (GoString.Split s c) as [| f fs] eqn:Hs; [done |].
    destruct fs as [| g fs]; cbn in *; by rewrite <- IH.
Qed.

(** There is one field more than there are separators. *)
Lemma Split_length s c : length (GoString.Split s c) = S (countByte c s).
Proof.
  induction s as [| a s IH]; cbn; [done |].
  pose proof (Split_not_nil s c) as Hne.
  destruct (Ascii.eqb a c); cbn.
  - by rewrite IH.
  - destruct (GoString.Split s c) as [| f fs]; [done |]. cbn in *. lia.
Qed.

(** No field contains the separator. *)
Lemma Split_fields_clean s c :
  Forall (fun field => countByte c field = 0%nat) (GoString.Split s c).
Proof.
  induction s as [| a s IH]; cbn; [by repeat constructor |].
  destruct (Ascii.eqb a c) eqn:Hac.
  - by constructor.
  - destruct (GoString.Split s c) as [| f fs];
      [constructor; [cbn; by rewrite Hac | constructor] |].
    inversion IH as [| ? ? Hf Hfs]; subst. constructor; [| done].
    cbn. by rewrite Hac.
Qed.

(* ===================================================================== *)
(** ** Properties of forcedParamsOsExec *)
(* ===================================================================== *)

Section ForcedParamsFacts.

Context {W Cmd Ctx : Type}.

(** X20: a command with forced parameters gets them before its own
    arguments.  The forced parameters are the fields of the configured
    value between single spaces: joined with spaces they give the value
    back, there is one more of them than there are spaces, and none
    contains a space; two spaces in a row give an empty parameter.  The
    arguments of the call follow unchanged. *)
Theorem Command_prepends_forced_params (e : forcedParamsOsExec W Cmd Ctx) cmd args value :
  cmdParamMapping e !! cmd = Some value ->
  value <> "" ->
  exists forced,
    Command e cmd args = exec_Command (exec e) cmd (forced ++ args)%list /\
    joinWith " " forced = value /\
    length forced = S (countByte " " value) /\
    Forall (fun param => countByte " " param = 0%nat) forced.
Proof.
  intros Hvalue Hne.
  exists (GoString.Split value " ").
  split; [| split; [apply joinWith_Split | split;
                    [apply Split_length | apply Split_fields_clean]]].
  unfold Command. rewrite Hvalue. cbn [default from_option id].
  destruct (String.eqb_spec value "") as [-> | _]; [done |]. reflexivity.
Qed.

(** X21: a command without forced parameters, or with the empty string as
    its value, is passed on with its arguments as they are; and
    [CommandContext] passes its arguments on as they are even for a
    command that has forced parameters. *)
Theorem Command_without_forced_params (e : forcedParamsOsExec W Cmd Ctx) ctx cmd args :
  (cmdParamMapping e !! cmd = None \/ cmdParamMapping e !! cmd = Some "" ->
   Command e cmd args = exec_Command (exec e) cmd args) /\
  CommandContext e ctx cmd args = exec_CommandContext (exec e) ctx cmd args /\
  (forall utilexec_New : ExecInterface W Cmd Ctx,
      Command (NewForcedParamsExec utilexec_New ∅) cmd args
      = exec_Command utilexec_New cmd args).
Proof.
  split; [| split; [reflexivity |]].
  - intros [Hnone | Hempty]; unfold Command.
    + by rewrite Hnone.
    + by rewrite Hempty.
  - intros utilexec_New. unfold Command, NewForcedParamsExec. cbn [cmdParamMapping exec].
    by rewrite lookup_empty.
Qed.

End ForcedParamsFacts.

(* ===================================================================== *)
(** ** The selectors of a descriptor *)
(* ===================================================================== *)

Section SelectorFacts.

Context (I : Imports).

(** X22: the selectors.  An absent [diskSelector] leaves the list empty; a
    present one is cut at its commas: the tags joined with commas give
    the value back, there is one tag more than there are commas (so the
    empty value gives one empty tag) and no tag contains a comma.  The
    same holds for [nodeSelector]. *)
Theorem getVolumeOptions_selectors volumeID (m : gmap string string) vol err m' :
  getVolumeOptions I volumeID m = (Some vol, err, m') ->
  (m !! "diskSelector" = None -> DiskSelector vol = []) /\
  (forall v, m !! "diskSelector" = Some v ->
             joinWith "," (DiskSelector vol) = v /\
             length (DiskSelector vol) = S (countByte "," v) /\
             Forall (fun tag => countByte "," tag = 0%nat) (DiskSelector vol)) /\
  (m !! "nodeSelector" = None -> NodeSelector vol = []) /\
  (forall v, m !! "nodeSelector" = Some v ->
             joinWith "," (NodeSelector vol) = v /\
             length (NodeSelector vol) = S (countByte "," v) /\
             Forall (fun tag => countByte "," tag = 0%nat) (NodeSelector vol)).
Proof.
  unfold getVolumeOptions. intros H. cbv zeta in H.
  do 2 block_skipped H.
  let x := fresh in let E := fresh in
  block_continues_as H x E; destruct x as [mig m2];
  assert (Hkeep : forall k, k <> "migratable" -> m2 !! k = m !! k)
    by (intros k Hk; clear - E Hk;
        repeat (case_match; simplify_eq); by rewrite ?lookup_insert_ne);
  clear E.
  repeat block_skipped H.
  simplify_eq. cbn [DiskSelector NodeSelector].
  rewrite !Hkeep by done.
  split; [by intros -> |]. split.
  { intros v ->. split; [apply joinWith_Split |].
    split; [apply Split_length | apply Split_fields_clean]. }
  split; [by intros -> |].
  intros v ->. split; [apply joinWith_Split |].
  split; [apply Split_length | apply Split_fields_clean].
Qed.

End SelectorFacts.

(* ===================================================================== *)
(** ** More properties of requiresSharedAccess *)
(* ===================================================================== *)

(** X23: [requiresSharedAccess] returns false exactly when the capability is
    nil or carries an access mode that is not one of the three multi-node
    modes, and the descriptor is nil or neither ReadWriteMany nor
    migratable. *)
Theorem requiresSharedAccess_false_iff vol cap :
  requiresSharedAccess vol cap = Some false <->
  (exists mode, requestedMode cap = Some mode /\ ~ multiNode mode) /\
  ~ sharedVolume vol.
Proof.
  unfold requiresSharedAccess. fold (requestedMode cap).
  split.
  - destruct (requestedMode cap) as [mode |]; [| discriminate]. cbn.
    intros [= H]. rewrite !orb_false_iff in H. destruct H as [[[Hvol H1] H2] H3].
    split.
    + exists mode. split; [done |]. unfold multiNode.
      intros [-> | [-> | ->]]; discriminate.
    + intros (v & -> & [Hrwx | Hmig]).
      * rewrite Hrwx in Hvol. discriminate.
      * rewrite Hmig, orb_true_r in Hvol. discriminate.
  - intros [(mode & -> & Hmode) Hvol]. cbn. f_equal.
    rewrite !orb_false_iff. repeat split.
    + destruct vol as [v |]; [| done].
      apply orb_false_iff. split.
      * apply String.eqb_neq. intros Hrwx. apply Hvol. exists v. by auto.
      * destruct (Migratable v) eqn:Hmig; [| done]. exfalso. apply Hvol. exists v. by auto.
    + destruct mode; try done. exfalso. apply Hmode. unfold multiNode. by auto.
    + destruct mode; try done. exfalso. apply Hmode. unfold multiNode. by auto.
    + destruct mode; try done. exfalso. apply Hmode. unfold multiNode. by auto.
Qed.

(* ===================================================================== *)
(** ** More properties of the backing-image folding *)
(* ===================================================================== *)

Section MoreBackingImageFacts.

Context (name dsType checksum dsParams : string)
        (json_Marshal : option (gmap string string) -> string).

(** X24: a nil map of volume parameters makes the function panic at the
    first assignment, whatever the backing-image map is. *)
Theorem updateVolumeParamsForBackingImage_nil_target
        (vp bp : nat) (h : gmap nat (gmap string string)) :
  h !! vp = None ->
  updateVolumeParamsForBackingImage name dsType checksum dsParams json_Marshal vp bp h
  = None.
Proof.
  intros Hnil.
  unfold updateVolumeParamsForBackingImage, BackingImageInfoFields, liftField,
    MapStore.mapAssign.
  cbn [foldl mbind option_bind]. by rewrite Hnil.
Qed.

(** The store after the loop, on two distinct allocated maps. *)
Lemma liftFields_distinct (vp bp : nat) (h : gmap nat (gmap string string))
      (V B : gmap string string) :
  vp <> bp -> h !! vp = Some V -> h !! bp = Some B ->
  exists h',
    foldl (fun acc v => acc ≫= liftField vp bp v) (Some h)
          (BackingImageInfoFields name dsType checksum) = Some h' /\
    h' !! vp =
      Some (<[checksum := default "" (delete dsType (delete name B) !! checksum)]>
              (<[dsType := default "" (delete name B !! dsType)]>
                 (<[name := default "" (B !! name)]> V))) /\
    h' !! bp = Some (delete checksum (delete dsType (delete name B))) /\
    (forall r, r <> vp -> r <> bp -> h' !! r = h !! r).
Proof.
  intros Hne HV HB. unfold BackingImageInfoFields. cbn [foldl mbind option_bind].
  destruct (liftField_distinct vp bp name h V B Hne HV HB)
    as (h1 & -> & HV1 & HB1 & Hr1).
  cbn [mbind option_bind].
  destruct (liftField_distinct vp bp dsType h1 _ _ Hne HV1 HB1)
    as (h2 & -> & HV2 & HB2 & Hr2).
  cbn [mbind option_bind].
  destruct (liftField_distinct vp bp checksum h2 _ _ Hne HV2 HB2)
    as (h3 & -> & HV3 & HB3 & Hr3).
  exists h3. repeat split; try done.
  intros r Hvp Hbp. by rewrite Hr3, Hr2, Hr1.
Qed.

(** X25: the folding is not idempotent.  A second call on the same two maps
    finds the three keys gone from the backing-image map and overwrites
    the three lifted values with the empty string; the backing-image map
    and the serialised remainder stay as the first call left them. *)
Theorem updateVolumeParamsForBackingImage_twice
        (vp bp : nat) (h : gmap nat (gmap string string)) (V B : gmap string string) :
  NoDup [name; dsType; checksum; dsParams] ->
  vp <> bp -> h !! vp = Some V -> h !! bp = Some B ->
  exists h1 h2 V1 V2 B1,
    updateVolumeParamsForBackingImage name dsType checksum dsParams json_Marshal vp bp h
      = Some h1 /\
    updateVolumeParamsForBackingImage name dsType checksum dsParams json_Marshal vp bp h1
      = Some h2 /\
    h1 !! vp = Some V1 /\ h1 !! bp = Some B1 /\
    h2 !! vp = Some V2 /\ h2 !! bp = Some B1 /\
    (forall k, k ∈ BackingImageInfoFields name dsType checksum -> V2 !! k = Some "") /\
    V2 !! dsParams = V1 !! dsParams /\
    (forall k, k ∉ BackingImageInfoFields name dsType checksum -> V2 !! k = V1 !! k).
Proof.
  intros Hnd Hne HV HB.
  assert (Hkeys : name <> dsType /\ name <> checksum /\ name <> dsParams /\
                  dsType <> checksum /\ dsType <> dsParams /\ checksum <> dsParams).
  { apply NoDup_cons in Hnd as [Hn Hnd]. apply NoDup_cons in Hnd as [Hd Hnd].
    apply NoDup_cons in Hnd as [Hc _].
    repeat rewrite not_elem_of_cons in Hn. repeat rewrite not_elem_of_cons in Hd.
    repeat rewrite not_elem_of_cons in Hc. tauto. }
  destruct Hkeys as (Hnd1 & Hnc & Hnp & Hdc & Hdp & Hcp). clear Hnd.
  destruct (liftFields_distinct vp bp h V B Hne HV HB) as (g1 & Hg1 & HV1 & HB1 & _).
  set (B1 := delete checksum (delete dsType (delete name B))) in *.
  set (V1 := <[dsParams := json_Marshal (Some B1)]>
               (<[checksum := default "" (delete dsType (delete name B) !! checksum)]>
                  (<[dsType := default "" (delete name B !! dsType)]>
                     (<[name := default "" (B !! name)]> V)))).
  set (h1 := <[vp := V1]> g1).
  assert (Hfirst : updateVolumeParamsForBackingImage name dsType checksum dsParams
                     json_Marshal vp bp h = Some h1).
  { unfold updateVolumeParamsForBackingImage. rewrite Hg1. cbn [mbind option_bind].
    unfold MapStore.mapAssign. by rewrite HV1, HB1. }
  assert (HV1' : h1 !! vp = Some V1) by apply lookup_insert_eq.
  assert (HB1' : h1 !! bp = Some B1) by (unfold h1; by rewrite lookup_insert_ne).
  destruct (liftFields_distinct vp bp h1 V1 B1 Hne HV1' HB1') as (g2 & Hg2 & HV2 & HB2 & _).
  assert (Hgone : B1 !! name = None /\ B1 !! dsType = None /\ B1 !! checksum = None).
  { unfold B1. repeat split.
    - by rewrite !lookup_delete_ne, lookup_delete_eq by congruence.
    - by rewrite lookup_delete_ne, lookup_delete_eq by congruence.
    - by rewrite lookup_delete_eq. }
  destruct Hgone as (Hgn & Hgd & Hgc).
  assert (HB1eq : delete checksum (delete dsType (delete name B1)) = B1).
  { rewrite (delete_id B1 name) by done. rewrite (delete_id B1 dsType) by done.
    by rewrite delete_id. }
  rewrite HB1eq in HB2.
  rewrite !lookup_delete_ne in HV2 by congruence.
  rewrite Hgn, Hgd, Hgc in HV2. cbn [default from_option] in HV2.
  set (V2 := <[dsParams := json_Marshal (Some B1)]>
               (<[checksum := ""]> (<[dsType := ""]> (<[name := ""]> V1)))).
  assert (Hsecond : updateVolumeParamsForBackingImage name dsType checksum dsParams
                      json_Marshal vp bp h1 = Some (<[vp := V2]> g2)).
  { unfold updateVolumeParamsForBackingImage. rewrite Hg2. cbn [mbind option_bind].
    unfold MapStore.mapAssign. by rewrite HV2, HB2. }
  exists h1, (<[vp := V2]> g2), V1, V2, B1.
  split; [exact Hfirst |]. split; [exact Hsecond |].
  split; [exact HV1' |]. split; [exact HB1' |].
  split; [by rewrite lookup_insert_eq |].
  split; [by rewrite lookup_insert_ne |].
  split; [| split].
  - intros k Hk. unfold BackingImageInfoFields in Hk.
    repeat rewrite elem_of_cons in Hk. rewrite elem_of_nil in Hk. unfold V2.
    destruct Hk as [-> | [-> | [-> | []]]].
    + by rewrite !lookup_insert_ne, lookup_insert_eq by congruence.
    + by rewrite !lookup_insert_ne, lookup_insert_eq by congruence.
    + by rewrite lookup_insert_ne, lookup_insert_eq by congruence.
  - unfold V2, V1. by rewrite !lookup_insert_eq.
  - intros k Hk. unfold BackingImageInfoFields in Hk.
    repeat rewrite not_elem_of_cons in Hk. destruct Hk as (? & ? & ? & _).
    destruct (decide (k = dsParams)) as [-> | Hp]; unfold V2.
    + unfold V1. by rewrite !lookup_insert_eq.
    + by rewrite !lookup_insert_ne by congruence.
Qed.

(** X26: when both arguments are one and the same map, nothing is lifted:
    the three keys are deleted from it, and the data-source parameters are
    the serialisation of what remains. *)
Theorem updateVolumeParamsForBackingImage_aliased
        (p : nat) (h : gmap nat (gmap string string)) (M : gmap string string) :
  h !! p = Some M ->
  let rest := delete checksum (delete dsType (delete name M)) in
  updateVolumeParamsForBackingImage name dsType checksum dsParams json_Marshal p p h
  = Some (<[p := <[dsParams := json_Marshal (Some rest)]> rest]> h).
Proof.
  intros HM rest.
  unfold updateVolumeParamsForBackingImage, BackingImageInfoFields.
  cbn [foldl mbind option_bind].
  rewrite (liftField_aliased p name h M HM). cbn [mbind option_bind].
  rewrite (liftField_aliased p dsType _ (delete name M)) by apply lookup_insert_eq.
  cbn [mbind option_bind].
  rewrite (liftField_aliased p checksum _ (delete dsType (delete name M)))
    by apply lookup_insert_eq.
  cbn [mbind option_bind]. unfold MapStore.mapAssign.
  rewrite !lookup_insert_eq. by rewrite !insert_insert_eq.
Qed.

(** X27: a nil backing-image map.  The three keys are set to the empty
    string in the volume parameters and the data-source parameters are the
    serialisation of the nil map. *)
Theorem updateVolumeParamsForBackingImage_nil_source
        (vp bp : nat) (h : gmap nat (gmap string string)) (V : gmap string string) :
  h !! vp = Some V -> h !! bp = None ->
  updateVolumeParamsForBackingImage name dsType checksum dsParams json_Marshal vp bp h
  = Some (<[vp := <[dsParams := json_Marshal None]>
                    (<[checksum := ""]> (<[dsType := ""]> (<[name := ""]> V)))]> h).
Proof.
  intros HV HB.
  assert (Hne : vp <> bp) by congruence.
  assert (Hstep : forall v g G, g !! vp = Some G -> g !! bp = None ->
                    liftField vp bp v g = Some (<[vp := <[v := ""]> G]> g)).
  { intros v g G HG Hnil.
    unfold liftField, MapStore.mapAssign, MapStore.mapIndex, MapStore.mapDelete.
    rewrite HG, Hnil. cbn. by rewrite lookup_insert_ne, Hnil. }
  unfold updateVolumeParamsForBackingImage, BackingImageInfoFields.
  cbn [foldl mbind option_bind].
  rewrite (Hstep name h V HV HB). cbn [mbind option_bind].
  rewrite (Hstep dsType _ (<[name := ""]> V))
    by (by rewrite ?lookup_insert_eq, ?lookup_insert_ne).
  cbn [mbind option_bind].
  rewrite (Hstep checksum _ (<[dsType := ""]> (<[name := ""]> V)))
    by (by rewrite ?lookup_insert_eq, ?lookup_insert_ne).
  cbn [mbind option_bind]. unfold MapStore.mapAssign.
  rewrite lookup_insert_eq, lookup_insert_ne by done.
  rewrite !lookup_insert_ne, HB by done.
  by rewrite !insert_insert_eq.
Qed.

End MoreBackingImageFacts.

(* ===================================================================== *)
(** ** The further properties on concrete runs *)
(* ===================================================================== *)

(** A [share] value that is no boolean, after a timeout that parses. *)
Lemma getVolumeOptions_error_names_key_witness :
  let m : gmap string string := <["share" := "yes"]> {[ "staleReplicaTimeout" := "30" ]} in
  exists before key message after value cause,
    validatedKeys = (before ++ (key, message) :: after)%list /\
    acceptedAll Fixture.imports m before /\
    m !! key = Some value /\
    checkKey Fixture.imports key value = Rejected (Some cause) /\
    withMessage (NumError "ParseBool" "yes" strconv.ErrSyntax) "invalid parameter share"
    = withMessage cause message.
Proof.
  intros m.
  refine (proj2 (getVolumeOptions_error_names_key Fixture.imports "pvc-1" m None _ m _)).
  vm_compute. reflexivity.
Defined.

(** The downgrade writes [migratable]; [share] comes back as it was. *)
Lemma getVolumeOptions_map_effect_witness :
  let m : gmap string string := <["migratable" := "true"]> {[ "share" := "false" ]} in
  (<["migratable" := "false"]> m = m \/
   (<["migratable" := "false"]> m = <["migratable" := "false"]> m /\
    exists s, m !! "migratable" = Some s /\ strconv.ParseBool s = inl true)) /\
  (<["migratable" := "false"]> m : gmap string string) !! "share" = m !! "share".
Proof.
  intros m.
  destruct (getVolumeOptions_map_effect Fixture.imports "pvc-1" m
              (Some (resolved m)) None (<["migratable" := "false"]> m))
    as [Hcase Hkeep].
  - vm_compute. reflexivity.
  - split; [exact Hcase |]. apply Hkeep. discriminate.
Defined.

(** A negative timeout falls back to the default; three replicas. *)
Lemma getVolumeOptions_descriptor_numbers_witness :
  let m : gmap string string :=
    <["staleReplicaTimeout" := "-5"]> {[ "numberOfReplicas" := "3" ]} in
  getVolumeOptions Fixture.imports "pvc-1" m = (Some (resolved m), None, m) /\
  0 < StaleReplicaTimeout (resolved m) < 2 ^ 63 /\
  0 <= NumberOfReplicas (resolved m) < 2 ^ 63.
Proof.
  intros m.
  assert (E : getVolumeOptions Fixture.imports "pvc-1" m = (Some (resolved m), None, m))
    by (vm_compute; reflexivity).
  split; [exact E |].
  exact (getVolumeOptions_descriptor_numbers _ _ _ _ _ _ E).
Defined.

(** A shared volume that is asked to be migratable is migratable. *)
Lemma getVolumeOptions_cross_field_witness :
  let m : gmap string string := <["migratable" := "true"]> {[ "share" := "true" ]} in
  getVolumeOptions Fixture.imports "pvc-1" m = (Some (resolved m), None, m) /\
  Migratable (resolved m) = true /\
  AccessMode (resolved m) = longhorn.AccessModeReadWriteMany.
Proof.
  intros m.
  assert (E : getVolumeOptions Fixture.imports "pvc-1" m = (Some (resolved m), None, m))
    by (vm_compute; reflexivity).
  split; [exact E |].
  destruct (getVolumeOptions_cross_field _ _ _ _ _ _ E) as (Hiff & Hrwx & _).
  assert (Hmig : Migratable (resolved m) = true).
  { apply Hiff. exists "true", "true". repeat split. }
  split; [exact Hmig | exact (Hrwx Hmig)].
Defined.

(** After the downgrade the map says [false], as the descriptor does. *)
Lemma getVolumeOptions_map_consistent_witness :
  let m : gmap string string := {[ "migratable" := "true" ]} in
  strconv.ParseBool "false" = inl (Migratable (resolved m)).
Proof.
  intros m.
  refine (getVolumeOptions_map_consistent Fixture.imports "pvc-1" m (resolved m) None
            {[ "migratable" := "false" ]} "false" _ _).
  - vm_compute. reflexivity.
  - reflexivity.
Defined.

(** A data engine that no validator has seen is copied. *)
Lemma getVolumeOptions_copied_fields_witness :
  let m : gmap string string :=
    <["dataEngine" := "v9"]> {[ "fromBackup" := "s3://backups@us-east-1/?volume=pvc-0" ]} in
  getVolumeOptions Fixture.imports "pvc-1" m = (Some (resolved m), None, m) /\
  FromBackup (resolved m) = "s3://backups@us-east-1/?volume=pvc-0" /\
  DataEngine (resolved m) = "v9" /\
  Frontend (resolved m) = "".
Proof.
  intros m.
  assert (E : getVolumeOptions Fixture.imports "pvc-1" m = (Some (resolved m), None, m))
    by (vm_compute; reflexivity).
  split; [exact E |].
  destruct (getVolumeOptions_copied_fields _ _ _ _ _ _ E)
    as (Hfrom & _ & _ & Hfront & Heng & _).
  split; [exact Hfrom |]. split; [exact Heng | exact Hfront].
Defined.

(** The file system type is a key of the storage class that the resolver
    does not read. *)
Lemma getVolumeOptions_ignores_unknown_keys_witness :
  let m : gmap string string := {[ "numberOfReplicas" := "3" ]} in
  (getVolumeOptions Fixture.imports "pvc-1" (<["fsType" := "ext4"]> m)).1
  = (getVolumeOptions Fixture.imports "pvc-1" m).1.
Proof.
  intros m.
  refine (proj1 (getVolumeOptions_ignores_unknown_keys Fixture.imports "pvc-1" m
                   "fsType" "ext4" _)).
  unfold recognizedKeys. cbn [BackingImageParameterName Fixture.imports].
  repeat rewrite not_elem_of_cons.
  repeat split; first [discriminate | apply not_elem_of_nil].
Defined.

(** Two commas in a row give an empty tag. *)
Lemma getVolumeOptions_selectors_witness :
  let m : gmap string string := {[ "diskSelector" := "ssd,,fast" ]} in
  getVolumeOptions Fixture.imports "pvc-1" m = (Some (resolved m), None, m) /\
  DiskSelector (resolved m) = ["ssd"; ""; "fast"] /\
  joinWith "," (DiskSelector (resolved m)) = "ssd,,fast" /\
  length (DiskSelector (resolved m)) = 3%nat /\
  NodeSelector (resolved m) = [].
Proof.
  intros m.
  assert (E : getVolumeOptions Fixture.imports "pvc-1" m = (Some (resolved m), None, m))
    by (vm_compute; reflexivity).
  split; [exact E |].
  destruct (getVolumeOptions_selectors _ _ _ _ _ _ E) as (_ & Hdisk & Hnode & _).
  destruct (Hdisk "ssd,,fast" eq_refl) as (Hjoin & Hlen & _).
  split; [vm_compute; reflexivity |].
  split; [exact Hjoin |]. split; [exact Hlen |]. apply Hnode. reflexivity.
Defined.

(** A busy mount: the error of the forced unmount comes back. *)
Lemma unmount_error_inv_witness :
  backendUnmount "/mnt/vol" (Fake.mounter staleAndBusy) []
  = (Some (errorString "umount: /mnt/vol: target is busy."),
     [Fake.UnmountWithForce_ "/mnt/vol" 30000000000]) /\
  notMountedError (errorString "umount: /mnt/vol: target is busy.") = false.
Proof.
  apply unmount_error_inv. vm_compute. reflexivity.
Defined.

(** The unmount succeeds and the cleanup removes the directory. *)
Lemma unmountAndCleanupMountPoint_cases_witness :
  unmountAndCleanupMountPoint (scriptedHost (inr (Errno ENOENT))) "/mnt/vol"
    (Fake.mounter Fake.healthy) []
  = (None, [Fake.UnmountWithForce_ "/mnt/vol" 30000000000; Fake.Remove_ "/mnt/vol"]).
Proof.
  refine (eq_trans
            (unmountAndCleanupMountPoint_cases (scriptedHost (inr (Errno ENOENT)))
               "/mnt/vol" (Fake.mounter Fake.healthy) [] None
               [Fake.UnmountWithForce_ "/mnt/vol" 30000000000] _) _).
  - reflexivity.
  - reflexivity.
Defined.

(** A busy mount is not cleaned up. *)
Example unmountAndCleanupMountPoint_busy :
  unmountAndCleanupMountPoint (scriptedHost (inr (Errno ENOENT))) "/mnt/vol"
    (Fake.mounter staleAndBusy) []
  = (Some (errorString "umount: /mnt/vol: target is busy."),
     [Fake.UnmountWithForce_ "/mnt/vol" 30000000000]).
Proof. vm_compute. reflexivity. Qed.

(** The healthy mount of the fixture. *)
Lemma ensureMountPoint_mounted_inv_witness :
  exists w1,
    IsMountPoint (Fake.mounter Fake.healthy) "/mnt/vol" [] = ((true, None), w1) /\
    GoError.os_IsNotExist None = false /\
    GoError.mount_IsCorruptedMnt None = false /\
    syncMountPointDirectory (Fake.sys Fake.healthy) "/mnt/vol" w1
    = (None, (ensureMountPoint (Fake.sys Fake.healthy) "/mnt/vol"
                (Fake.mounter Fake.healthy) []).2).
Proof.
  apply ensureMountPoint_mounted_inv. vm_compute. reflexivity.
Defined.

(** A regular file where a directory is wanted. *)
Lemma ensureDirectory_error_not_created_witness :
  (ensureDirectory (Fake.sys regularFile) "/etc/hosts" []).1.1 = false.
Proof.
  apply (ensureDirectory_error_not_created (Fake.sys regularFile) "/etc/hosts" [] _
           (errorString "path /etc/hosts exists but is not a folder")
           [Fake.Stat_ "/etc/hosts"]).
  vm_compute. reflexivity.
Defined.

(** The inodes of the fixture: 640 in total, 600 free. *)
Lemma getFilesystemStatistics_inodes_witness :
  exists volStats,
    getFilesystemStatistics (Fake.sys Fake.healthy) "/mnt/vol" []
      = ((Some volStats, None), [Fake.Statfs_ "/mnt/vol"]) /\
    usedInodes volStats + availableInodes volStats = totalInodes volStats /\
    totalInodes volStats = 640 /\
    0 <= usedInodes volStats <= totalInodes volStats.
Proof.
  apply (getFilesystemStatistics_inodes (Fake.sys Fake.healthy) "/mnt/vol" []
           {| Bsize := 4096; Blocks := 1000; Bfree := 400;
              Bavail := 350; Files := 640; Ffree := 600 |}).
  - reflexivity.
  - cbn. lia.
  - cbn. lia.
Defined.

(** The blocks of the fixture: 1000 of 4096 bytes, 400 free, 350
    available. *)
Lemma getFilesystemStatistics_bytes_witness :
  exists volStats,
    getFilesystemStatistics (Fake.sys Fake.healthy) "/mnt/vol" []
      = ((Some volStats, None), [Fake.Statfs_ "/mnt/vol"]) /\
    usedBytes volStats + 400 * 4096 = totalBytes volStats /\
    0 <= usedBytes volStats <= totalBytes volStats /\
    0 <= availableBytes volStats <= totalBytes volStats - usedBytes volStats.
Proof.
  apply (getFilesystemStatistics_bytes (Fake.sys Fake.healthy) "/mnt/vol" []
           {| Bsize := 4096; Blocks := 1000; Bfree := 400;
              Bavail := 350; Files := 640; Ffree := 600 |}).
  - reflexivity.
  - cbn. lia.
  - cbn. lia.
  - cbn. lia.
  - cbn. lia.
Defined.

(** A block device with mode 0660. *)
Lemma isBlockDevice_file_type_witness :
  isBlockDevice (scriptedHost (inl {| unix.Mode := 25008 |})) "/dev/longhorn/pvc-1" []
  = ((true, None), [Fake.Stat_ "/dev/longhorn/pvc-1"]).
Proof.
  apply (isBlockDevice_file_type (scriptedHost (inl {| unix.Mode := 25008 |}))
           "/dev/longhorn/pvc-1" [] 0x6000 432).
  - reflexivity.
  - lia.
  - reflexivity.
Defined.

(** A character device, a directory and a regular file are no block
    devices. *)
Example isBlockDevice_other_types :
  (isBlockDevice (scriptedHost (inl {| unix.Mode := 0x21b0 |})) "/dev/null" []).1
  = (false, None) /\
  (isBlockDevice (scriptedHost (inl {| unix.Mode := 0x41ed |})) "/dev" []).1
  = (false, None) /\
  (isBlockDevice (scriptedHost (inl {| unix.Mode := 0x81a4 |})) "/etc/hosts" []).1
  = (false, None).
Proof. repeat split. Qed.

(** A path under a regular file cannot be opened. *)
Lemma makeFile_error_inv_witness :
  let e := PathError "open" "/etc/hosts/pvc-1" (Errno ENOTDIR) in
  (exists f w1,
      os_OpenFile (Fake.sys regularFile) "/etc/hosts/pvc-1" os.O_CREATE perm_0644 []
      = (inl f, w1) /\
      File_Close (Fake.sys regularFile) f w1
      = (Some e, [Fake.OpenFile_ "/etc/hosts/pvc-1" os.O_CREATE perm_0644])) \/
  (os_OpenFile (Fake.sys regularFile) "/etc/hosts/pvc-1" os.O_CREATE perm_0644 []
   = (inr e, [Fake.OpenFile_ "/etc/hosts/pvc-1" os.O_CREATE perm_0644]) /\
   os_IsExist (scriptedHost (inr (Errno ENOENT))) (Some e) = false).
Proof.
  intros e.
  apply (makeFile_error_inv (Fake.sys regularFile) (scriptedHost (inr (Errno ENOENT)))).
  vm_compute. reflexivity.
Defined.

(** The probe of the healthy fixture. *)
Lemma syncMountPointDirectory_releases_witness :
  exists calls,
    (syncMountPointDirectory (Fake.sys Fake.healthy) "/mnt/vol" []).2 = ([] ++ calls)%list /\
    last calls = Some (Fake.Close_ 3) /\
    exists before,
      calls = (before ++ [Fake.WriteString_ 4 (sentinelOf "/mnt/vol");
                          Fake.Close_ 4;
                          Fake.Remove_ (sentinelOf "/mnt/vol");
                          Fake.Close_ 3])%list.
Proof.
  destruct (syncMountPointDirectory_releases Fake.healthy "/mnt/vol" [])
    as (calls & Hrun & _ & Hlast & Hsentinel & _).
  exists calls. split; [exact Hrun |]. split; [exact (Hlast 3 eq_refl) |].
  apply (Hsentinel 3 4 eq_refl eq_refl).
  cbn [app] in Hrun. rewrite <- Hrun. vm_compute. right. right. left. reflexivity.
Defined.

(** The probe on a path with a trailing slash: the sentinel is named by
    the cleaned join. *)
Example syncMountPointDirectory_trailing_slash :
  syncMountPointDirectory (Fake.sys Fake.healthy) "/mnt/vol/" []
  = (None,
     [Fake.OpenFile_ "/mnt/vol/" os.O_SYNC perm_0750;
      Fake.Readdirnames_ 4 1;
      Fake.OpenFile_ "/mnt/vol/.longhorn-volume-mount-point-test.tmp" 0x101242 perm_0666;
      Fake.WriteString_ 4 "/mnt/vol/.longhorn-volume-mount-point-test.tmp";
      Fake.Close_ 4;
      Fake.Remove_ "/mnt/vol/.longhorn-volume-mount-point-test.tmp";
      Fake.Close_ 4]).
Proof. vm_compute. reflexivity. Qed.

(** The probe of an empty directory. *)
Lemma syncMountPointDirectory_tolerates_EOF_witness :
  syncMountPointDirectory (Fake.sys emptyDirectory) "/mnt/vol" []
  = syncMountPointDirectory (Fake.sys (withReaddirnames emptyDirectory ([], None)))
      "/mnt/vol" [] /\
  (syncMountPointDirectory (Fake.sys emptyDirectory) "/mnt/vol" []).1 = None.
Proof.
  split.
  - apply (syncMountPointDirectory_tolerates_EOF emptyDirectory "/mnt/vol" [] [] io_EOF).
    + reflexivity.
    + reflexivity.
  - vm_compute. reflexivity.
Defined.

(** The healthy mount of the fixture is left alone. *)
Lemma ensureMountPoint_mounted_untouched_witness :
  existsb changesMounts
    (ensureMountPoint (Fake.sys Fake.healthy) "/mnt/vol" (Fake.mounter Fake.healthy) []).2
  = false.
Proof.
  apply (ensureMountPoint_mounted_untouched Fake.healthy "/mnt/vol" None).
  vm_compute. reflexivity.
Defined.

(** A stale mount is unmounted by force, once. *)
Lemma ensureMountPoint_corrupt_unmounts_witness :
  let run := ensureMountPoint (Fake.sys staleAndBusy) "/mnt/vol"
               (Fake.mounter staleAndBusy) [] in
  run.1.1 = false /\
  last run.2 = Some (Fake.UnmountWithForce_ "/mnt/vol" 30000000000) /\
  length (filter (fun c => changesMounts c = true) run.2) = 1%nat.
Proof.
  apply (ensureMountPoint_corrupt_unmounts staleAndBusy "/mnt/vol" true None).
  - reflexivity.
  - reflexivity.
  - right. vm_compute. discriminate.
Defined.

(** Formatting with forced feature flags. *)
Lemma Command_prepends_forced_params_witness :
  exists forced,
    Command formatExec "mkfs.ext4" ["-F"; "/dev/longhorn/pvc-1"]
    = ("mkfs.ext4", (forced ++ ["-F"; "/dev/longhorn/pvc-1"])%list) /\
    joinWith " " forced = "-O ^64bit,^metadata_csum" /\
    length forced = 2%nat /\
    Forall (fun param => countByte " " param = 0%nat) forced.
Proof.
  apply (Command_prepends_forced_params formatExec "mkfs.ext4"
           ["-F"; "/dev/longhorn/pvc-1"] "-O ^64bit,^metadata_csum").
  - vm_compute. reflexivity.
  - discriminate.
Defined.

(** The forced parameters and the arguments, in order. *)
Example Command_mkfs :
  Command formatExec "mkfs.ext4" ["-F"; "/dev/longhorn/pvc-1"]
  = ("mkfs.ext4", ["-O"; "^64bit,^metadata_csum"; "-F"; "/dev/longhorn/pvc-1"]) /\
  CommandContext formatExec tt "mkfs.ext4" ["-F"; "/dev/longhorn/pvc-1"]
  = ("mkfs.ext4", ["-F"; "/dev/longhorn/pvc-1"]).
Proof. split; vm_compute; reflexivity. Qed.

(** A command without forced parameters. *)
Lemma Command_without_forced_params_witness :
  Command formatExec "blkid" ["-p"; "/dev/longhorn/pvc-1"]
  = ("blkid", ["-p"; "/dev/longhorn/pvc-1"]).
Proof.
  apply (proj1 (Command_without_forced_params formatExec tt "blkid"
                  ["-p"; "/dev/longhorn/pvc-1"])).
  left. vm_compute. reflexivity.
Defined.

(** No descriptor and no capability: no shared access. *)
Lemma requiresSharedAccess_false_iff_witness :
  requiresSharedAccess None None = Some false.
Proof.
  apply requiresSharedAccess_false_iff. split.
  - exists csi.UNKNOWN. split; [reflexivity |].
    intros [H | [H | H]]; discriminate H.
  - intros (v & H & _). discriminate H.
Defined.

(** No map of volume parameters. *)
Lemma updateVolumeParamsForBackingImage_nil_target_witness :
  updateVolumeParamsForBackingImage
    "backingImage" "backingImageDataSourceType" "backingImageChecksum"
    "backingImageDataSourceParameters" Fixture.marshal 0 1
    {[ 1%nat := {[ "backingImage" := "img1" ]} ]}
  = None.
Proof.
  apply updateVolumeParamsForBackingImage_nil_target. reflexivity.
Defined.

(** The second call blanks the name that the first call lifted. *)
Lemma updateVolumeParamsForBackingImage_twice_witness :
  let V : gmap string string := {[ "numberOfReplicas" := "3" ]} in
  let B : gmap string string :=
    <["backingImage" := "img1"]> {[ "url" := "https://images/img1" ]} in
  let h : gmap nat (gmap string string) := <[0%nat := V]> {[ 1%nat := B ]} in
  exists h1 h2 V1 V2,
    updateVolumeParamsForBackingImage
      "backingImage" "backingImageDataSourceType" "backingImageChecksum"
      "backingImageDataSourceParameters" Fixture.marshal 0 1 h = Some h1 /\
    updateVolumeParamsForBackingImage
      "backingImage" "backingImageDataSourceType" "backingImageChecksum"
      "backingImageDataSourceParameters" Fixture.marshal 0 1 h1 = Some h2 /\
    h1 !! 0%nat = Some V1 /\ h2 !! 0%nat = Some V2 /\
    V1 !! "backingImage" = Some "img1" /\
    V2 !! "backingImage" = Some "" /\
    V2 !! "numberOfReplicas" = Some "3".
Proof.
  intros V B h.
  destruct (updateVolumeParamsForBackingImage_twice
              "backingImage" "backingImageDataSourceType" "backingImageChecksum"
              "backingImageDataSourceParameters" Fixture.marshal 0 1 h V B)
    as (h1 & h2 & V1 & V2 & B1 & Hfirst & Hsecond & HV1 & _ & HV2 & _ & Hblank & _ & Hkeep).
  - apply (bool_decide_unpack _). vm_compute. exact I.
  - discriminate.
  - reflexivity.
  - reflexivity.
  - set (entry := fun (r : option (gmap nat (gmap string string))) (k : string) =>
                    match r with
                    | Some g => match g !! 0%nat with
                                | Some G => G !! k
                                | None => None
                                end
                    | None => None
                    end).
    assert (Hlook : forall k : string,
              entry (updateVolumeParamsForBackingImage
                       "backingImage" "backingImageDataSourceType" "backingImageChecksum"
                       "backingImageDataSourceParameters" Fixture.marshal 0 1 h) k
              = V1 !! k).
    { intros k. rewrite Hfirst. unfold entry. rewrite HV1. reflexivity. }
    exists h1, h2, V1, V2.
    split; [exact Hfirst |]. split; [exact Hsecond |].
    split; [exact HV1 |]. split; [exact HV2 |].
    split; [rewrite <- Hlook; vm_compute; reflexivity |].
    split; [apply Hblank; in_fields |].
    rewrite (Hkeep "numberOfReplicas" ltac:(out_fields)).
    rewrite <- Hlook. vm_compute. reflexivity.
Defined.

(** One map passed for both arguments loses the name. *)
Lemma updateVolumeParamsForBackingImage_aliased_witness :
  let M : gmap string string :=
    <["backingImage" := "img1"]> {[ "url" := "https://images/img1" ]} in
  updateVolumeParamsForBackingImage
    "backingImage" "backingImageDataSourceType" "backingImageChecksum"
    "backingImageDataSourceParameters" Fixture.marshal 0 0 {[ 0%nat := M ]}
  = Some {[ 0%nat :=
              <["backingImageDataSourceParameters" :=
                  Fixture.marshal (Some {[ "url" := "https://images/img1" ]})]>
                {[ "url" := "https://images/img1" ]} ]}.
Proof.
  intros M.
  refine (eq_trans
            (updateVolumeParamsForBackingImage_aliased
               "backingImage" "backingImageDataSourceType" "backingImageChecksum"
               "backingImageDataSourceParameters" Fixture.marshal 0 {[ 0%nat := M ]} M _) _).
  - reflexivity.
  - vm_compute. reflexivity.
Defined.

(** No backing-image map. *)
Lemma updateVolumeParamsForBackingImage_nil_source_witness :
  updateVolumeParamsForBackingImage
    "backingImage" "backingImageDataSourceType" "backingImageChecksum"
    "backingImageDataSourceParameters" Fixture.marshal 0 1
    {[ 0%nat := {[ "numberOfReplicas" := "3" ]} ]}
  = Some {[ 0%nat :=
              <["backingImageDataSourceParameters" := "null"]>
                (<["backingImageChecksum" := ""]>
                   (<["backingImageDataSourceType" := ""]>
                      (<["backingImage" := ""]> {[ "numberOfReplicas" := "3" ]}))) ]}.
Proof.
  refine (eq_trans
            (updateVolumeParamsForBackingImage_nil_source
               "backingImage" "backingImageDataSourceType" "backingImageChecksum"
               "backingImageDataSourceParameters" Fixture.marshal 0 1
               {[ 0%nat := {[ "numberOfReplicas" := "3" ]} ]}
               {[ "numberOfReplicas" := "3" ]} _ _) _).
  - reflexivity.
  - reflexivity.
  - vm_compute. reflexivity.
Defined.
